(** * nonconformist: inductive and aggregated conformal predictors

    Shallow embedding of [nonconformist/icp.py] ([BaseIcp], [IcpClassifier],
    [IcpRegressor]) and of [AggregatedCp.predict] in [nonconformist/acp.py].

    Modelling choices:
    - numpy float arrays are lists of rationals [Q] (floating-point rounding
      is not modelled); a 2-D array is a list of rows;
    - class labels are integers [Z]; feature rows have an abstract type [X];
    - the external nonconformity function is a parameter ([calc_nc],
      [nc_predict]); the global generator behind [np.random.uniform] is a
      stream [rng : nat -> Q] read at a position that each call threads;
    - Python exceptions are values of [exn]; fallible code returns [result];
    - Python classes are their MRO, a list of class bodies whose attribute
      dictionaries store private names ([__x]) under their mangled form. *)

From Stdlib Require Import List String ZArith QArith Lia Lqa Bool Sorted Permutation.
Import ListNotations.
Open Scope string_scope.

(* ------------------------------------------------------------------------- *)
(** ** Python runtime fragment *)

Inductive exn := Exn (name : string).

Definition AttributeError : exn := Exn "AttributeError".
Definition IndexError : exn := Exn "IndexError".

Inductive result (A : Type) : Type :=
| Ok (a : A)
| Err (e : exn).
Arguments Ok {A} a.
Arguments Err {A} e.

Inductive pyval := PyNone | PyStr (s : string).

Definition pyval_eqb (a b : pyval) : bool :=
  match a, b with
  | PyNone, PyNone => true
  | PyStr s, PyStr t => String.eqb s t
  | _, _ => false
  end.

(** A class body: its name and the attributes assigned in it. *)
Record classdef := {
  cls_name : string;
  cls_dict : list (string * pyval)
}.

(** A class, given by its method resolution order (the class first). *)
Definition pyclass := list classdef.

Fixpoint assoc (k : string) (d : list (string * pyval)) : option pyval :=
  match d with
  | [] => None
  | (k', v) :: r => if String.eqb k k' then Some v else assoc k r
  end.

(** Attribute lookup on a class object: first class of the MRO that has it. *)
Fixpoint getattr (mro : pyclass) (a : string) : result pyval :=
  match mro with
  | [] => Err AttributeError
  | c :: r =>
      match assoc a (cls_dict c) with
      | Some v => Ok v
      | None => getattr r a
      end
  end.

Definition ends_with (suf s : string) : bool :=
  let n := String.length s in
  let m := String.length suf in
  (m <=? n)%nat && String.eqb (substring (n - m) m s) suf.

(** Private name mangling: an identifier [__x] (not ending in [__]) written
    inside the body of class [owner] stands for [_owner__x]. *)
Definition mangle (owner attr : string) : string :=
  if String.prefix "__" attr && negb (ends_with "__" attr)
  then "_" ++ owner ++ attr
  else attr.

(* ------------------------------------------------------------------------- *)
(** ** Class objects of icp.py *)

Definition object_def : classdef := {| cls_name := "object"; cls_dict := [] |}.

(** [class BaseIcp(object): __problem_type = None] *)
Definition BaseIcp_def : classdef :=
  {| cls_name := "BaseIcp";
     cls_dict := [(mangle "BaseIcp" "__problem_type", PyNone)] |}.

(** [class IcpClassifier(BaseIcp): __problem_type = 'classification'] *)
Definition IcpClassifier_def : classdef :=
  {| cls_name := "IcpClassifier";
     cls_dict := [(mangle "IcpClassifier" "__problem_type",
                   PyStr "classification")] |}.

(** [class IcpRegressor(BaseIcp): __problem_type = 'regression'] *)
Definition IcpRegressor_def : classdef :=
  {| cls_name := "IcpRegressor";
     cls_dict := [(mangle "IcpRegressor" "__problem_type",
                   PyStr "regression")] |}.

Definition BaseIcp : pyclass := [BaseIcp_def; object_def].
Definition IcpClassifier : pyclass := [IcpClassifier_def; BaseIcp_def; object_def].
Definition IcpRegressor : pyclass := [IcpRegressor_def; BaseIcp_def; object_def].

(** [BaseIcp.get_problem_type]: [return cls.__problem_type], written in the
    body of [BaseIcp], hence mangled with the owner [BaseIcp]. *)
Definition get_problem_type (cls : pyclass) : result pyval :=
  getattr cls (mangle "BaseIcp" "__problem_type").

(* ------------------------------------------------------------------------- *)
(** ** numpy helpers *)

Open Scope Q_scope.

Definition Q_of_nat (n : nat) : Q := inject_Z (Z.of_nat n).

(** [np.sum(cal_scores >= nc)] *)
Fixpoint count_ge (cal : list Q) (nc : Q) : nat :=
  match cal with
  | [] => 0%nat
  | s :: r => ((if Qle_bool nc s then 1 else 0) + count_ge r nc)%nat
  end.

Definition Qltb (a b : Q) : bool := negb (Qle_bool b a).

(** [p > significance], elementwise *)
Definition gt_matrix (p : list (list Q)) (e : Q) : list (list bool) :=
  map (map (fun a => Qltb e a)) p.

(** [predictions >= significance], elementwise *)
Definition ge_matrix (p : list (list Q)) (e : Q) : list (list bool) :=
  map (map (fun a => Qle_bool e a)) p.

(** Truth value of the [significance] argument in [if significance:]:
    [None] and a zero float are false. *)
Definition truthy (significance : option Q) : bool :=
  match significance with
  | None => false
  | Some e => negb (Qeq_bool e 0)
  end.

(** Insert into a sorted duplicate-free list. *)
Fixpoint ins_uniq (a : Z) (l : list Z) : list Z :=
  match l with
  | [] => [a]
  | b :: r =>
      if (a <? b)%Z then a :: l
      else if (a =? b)%Z then l
      else b :: ins_uniq a r
  end.

(** [np.unique]: the sorted distinct elements. *)
Definition unique (l : list Z) : list Z := fold_right ins_uniq [] l.

(** Output of a classifier [predict]: a p-value matrix or a boolean matrix. *)
Inductive pred_out :=
| OutP (p : list (list Q))
| OutB (b : list (list bool)).

(* ------------------------------------------------------------------------- *)
(** ** Inductive conformal predictors (icp.py) *)

Section Icp.

(** Feature rows. *)
Variable X : Type.

(** [nc_function.calc_nc(x, y)]: one nonconformity score per row. *)
Variable calc_nc : list X -> list Z -> list Q.

(** Instance state of [BaseIcp]; [cal_scores = None] when the attribute has
    not been assigned yet ([__init__] does not create it). *)
Record base_icp := {
  cal_x : option (list X);
  cal_y : option (list Z);
  cal_scores : option (list Q)
}.

(** [BaseIcp.__init__] *)
Definition base_init : base_icp :=
  {| cal_x := None; cal_y := None; cal_scores := None |}.

(** [BaseIcp._update_calibration_set]: [np.vstack]/[np.hstack] append. *)
Definition update_calibration_set (st : base_icp) (x : list X) (y : list Z)
    (increment : bool) : base_icp :=
  match increment, cal_x st, cal_y st with
  | true, Some cx, Some cy =>
      {| cal_x := Some (cx ++ x)%list; cal_y := Some (cy ++ y)%list;
         cal_scores := cal_scores st |}
  | _, _, _ =>
      {| cal_x := Some x; cal_y := Some y; cal_scores := cal_scores st |}
  end.

(** The last line of [BaseIcp.calibrate]:
    [self.cal_scores = self.nc_function.calc_nc(self.cal_x, self.cal_y)]. *)
Definition recompute_scores (st : base_icp) : base_icp :=
  match cal_x st, cal_y st with
  | Some cx, Some cy =>
      {| cal_x := cal_x st; cal_y := cal_y st;
         cal_scores := Some (calc_nc cx cy) |}
  | _, _ => st
  end.

(** [BaseIcp.calibrate] after [_calibrate_hook] (a no-op in [BaseIcp]). *)
Definition base_calibrate (st : base_icp) (x : list X) (y : list Z)
    (increment : bool) : base_icp :=
  recompute_scores (update_calibration_set st x y increment).

(** Instance state of [IcpClassifier]. *)
Record icp_classifier := {
  base : base_icp;
  classes : option (list Z);
  smoothing : bool
}.

(** [IcpClassifier.__init__(nc_function, smoothing)] *)
Definition classifier_init (smoothing : bool) : icp_classifier :=
  {| base := base_init; classes := None; smoothing := smoothing |}.

(** [IcpClassifier._update_classes] *)
Definition update_classes (cls : option (list Z)) (y : list Z)
    (increment : bool) : list Z :=
  match cls with
  | Some c => if increment then unique (c ++ y)%list else unique y
  | None => unique y
  end.

(** [IcpClassifier.calibrate]: the hook updates [classes], then the
    calibration set and scores are updated as in [BaseIcp]. *)
Definition classifier_calibrate (st : icp_classifier) (x : list X)
    (y : list Z) (increment : bool) : icp_classifier :=
  {| base := base_calibrate (base st) x y increment;
     classes := Some (update_classes (classes st) y increment);
     smoothing := smoothing st |}.

(** The global generator behind [np.random.uniform(0, 1, n)]: the draws
    at positions [k], [k+1], ... *)
Variable rng : nat -> Q.

(** Column [i] of [p] in [IcpClassifier.predict], for the class [c], with the
    generator at position [k]; returns the column and the new position.
      test_nc_scores = calc_nc(x, [c]*n);  n_cal = self.cal_scores.size
      p[j, i] = n_ge / (n_cal + 1)         for j, nc in enumerate(scores)
      p[:, i] += uniform(0, 1, n)/(n_cal + 1)  or  1/(n_cal + 1) *)
Definition class_column (cal : option (list Q)) (x : list X) (c : Z)
    (smooth : bool) (k : nat) : result (list Q * nat) :=
  let n := List.length x in
  let test_nc_scores := calc_nc x (repeat c n) in
  match cal with
  | None => Err AttributeError
  | Some cs =>
      let n_cal := List.length cs in
      if (n <? List.length test_nc_scores)%nat then Err IndexError
      else
        let entry j :=
          match nth_error test_nc_scores j with
          | Some nc => Q_of_nat (count_ge cs nc) / Q_of_nat (n_cal + 1)
          | None => 0
          end in
        if smooth then
          Ok (map (fun j => entry j + rng (k + j) / Q_of_nat (n_cal + 1))
                  (seq 0 n), (k + n)%nat)
        else
          Ok (map (fun j => entry j + 1 / Q_of_nat (n_cal + 1)) (seq 0 n), k)
  end.

(** The loop [for i, c in enumerate(self.classes)], one column per class. *)
Fixpoint class_columns (cal : option (list Q)) (x : list X) (cls : list Z)
    (smooth : bool) (k : nat) : result (list (list Q) * nat) :=
  match cls with
  | [] => Ok ([], k)
  | c :: r =>
      match class_column cal x c smooth k with
      | Err e => Err e
      | Ok (col, k1) =>
          match class_columns cal x r smooth k1 with
          | Err e => Err e
          | Ok (cols, k2) => Ok (col :: cols, k2)
          end
      end
  end.

(** The [n x m] matrix [p] (list of rows) from its [m] columns. *)
Definition rows_of_columns (n : nat) (cols : list (list Q)) : list (list Q) :=
  map (fun j => map (fun col => nth j col 0) cols) (seq 0 n).

(** [IcpClassifier.predict(x, significance)]; [self.classes.size] fails on
    [None] with an [AttributeError]. *)
Definition classifier_predict (st : icp_classifier) (x : list X)
    (significance : option Q) (k : nat) : result (pred_out * nat) :=
  match classes st with
  | None => Err AttributeError
  | Some cls =>
      match class_columns (cal_scores (base st)) x cls (smoothing st) k with
      | Err e => Err e
      | Ok (cols, k1) =>
          let p := rows_of_columns (List.length x) cols in
          match significance with
          | Some e => if truthy significance then Ok (OutB (gt_matrix p e), k1)
                      else Ok (OutP p, k1)
          | None => Ok (OutP p, k1)
          end
      end
  end.

(** [IcpRegressor.__init__] *)
Definition regressor_init : base_icp := base_init.

(** [IcpRegressor.predict(x, significance)]:
    [return self.nc_function.predict(x, self.cal_scores, significance)]; the
    argument [self.cal_scores] fails with an [AttributeError] while unset. *)
Definition regressor_predict {O : Type}
    (nc_predict : list X -> list Q -> option Q -> O)
    (st : base_icp) (x : list X) (significance : option Q) : result O :=
  match cal_scores st with
  | None => Err AttributeError
  | Some cs => Ok (nc_predict x cs significance)
  end.

End Icp.

Arguments cal_x {X} _.
Arguments cal_y {X} _.
Arguments cal_scores {X} _.
Arguments base_init {X}.
Arguments update_calibration_set {X} st x y increment.
Arguments recompute_scores {X} calc_nc st.
Arguments base_calibrate {X} calc_nc st x y increment.
Arguments base {X} _.
Arguments classes {X} _.
Arguments smoothing {X} _.
Arguments classifier_init {X} smoothing.
Arguments classifier_calibrate {X} calc_nc st x y increment.
Arguments class_column {X} calc_nc rng cal x c smooth k.
Arguments class_columns {X} calc_nc rng cal x cls smooth k.
Arguments classifier_predict {X} calc_nc rng st x significance k.
Arguments regressor_init {X}.
Arguments regressor_predict {X O} nc_predict st x significance.

(* ------------------------------------------------------------------------- *)
(** ** Aggregated conformal predictor (acp.py) *)

(** [self.cp_class.get_problem_type() == 'regression'] *)
Definition is_regression (cp_class : pyclass) : result bool :=
  match get_problem_type cp_class with
  | Err e => Err e
  | Ok v => Ok (pyval_eqb v (PyStr "regression"))
  end.

Section Acp.

(** Feature rows and ensemble members ([self.predictors]). *)
Variables (X P : Type).

(** [p.predict(x, s)] of one member: a query x output matrix (p-values per
    class, or interval bounds). *)
Variable member_predict : P -> list X -> option Q -> list (list Q).

(** [self.p_agg_func] applied to the [np.dstack] of the member outputs
    (one matrix per model). *)
Variable p_agg_func : list (list (list Q)) -> list (list Q).

(** [AggregatedCp.predict(x, significance)] *)
Definition acp_predict (cp_class : pyclass) (predictors : list P)
    (x : list X) (significance : option Q) : result pred_out :=
  match is_regression cp_class with
  | Err e => Err e
  | Ok is_reg =>
      let f p x := member_predict p x (if is_reg then significance else None) in
      let predictions := p_agg_func (map (fun p => f p x) predictors) in
      match significance with
      | Some e => if truthy significance && negb is_reg
                  then Ok (OutB (ge_matrix predictions e))
                  else Ok (OutP predictions)
      | None => Ok (OutP predictions)
      end
  end.

End Acp.

Arguments acp_predict {X P} member_predict p_agg_func cp_class predictors x
  significance.

(** Incremental calibration calls in sequence: [calibrate(x, y, True)] for
    each [(x, y)] of [calls]. *)
Definition calibrate_incremental {X : Type} (calc_nc : list X -> list Z -> list Q)
    (st : icp_classifier X) (calls : list (list X * list Z)) : icp_classifier X :=
  fold_left (fun s '(x, y) => classifier_calibrate calc_nc s x y true) calls st.

(** The known classes, [[]] before the first calibration. *)
Definition known_classes {X : Type} (st : icp_classifier X) : list Z :=
  match classes st with Some c => c | None => [] end.

(* ------------------------------------------------------------------------- *)
(** ** Default aggregation of [AggregatedCp] (acp.py) *)

Fixpoint Qsum (l : list Q) : Q :=
  match l with
  | [] => 0
  | a :: r => a + Qsum r
  end.

(** [lambda x: np.mean(x, axis=2)] applied to [np.dstack(ms)]: entry
    [(j, i)] is the mean of entry [(j, i)] over the model matrices. The shape
    is read from the first matrix; [np.dstack] of an empty list or of matrices
    of different shapes raises instead, and no property below uses such
    inputs. *)
Definition mean_agg (ms : list (list (list Q))) : list (list Q) :=
  match ms with
  | [] => []
  | m0 :: _ =>
      map (fun j =>
             map (fun i => Qsum (map (fun m => nth i (nth j m []) 0) ms) /
                           Q_of_nat (List.length ms))
                 (seq 0 (List.length (nth j m0 []))))
          (seq 0 (List.length m0))
  end.

(** An [n x c] matrix. *)
Definition is_matrix {A : Type} (n c : nat) (m : list (list A)) : Prop :=
  List.length m = n /\ Forall (fun r => List.length r = c) m.

(* ------------------------------------------------------------------------- *)
(** ** Sampling strategies (acp.py) *)

(** [a[j] = v] on a list; out of range leaves [None] ([IndexError]). *)
Fixpoint set_nth {A : Type} (l : list A) (j : nat) (v : A) : option (list A) :=
  match l, j with
  | [], _ => None
  | _ :: r, O => Some (v :: r)
  | a :: r, S j' =>
      match set_nth r j' v with
      | Some r' => Some (a :: r')
      | None => None
      end
  end.

(** [for j in train: cal_mask[j] = False] *)
Fixpoint clear_mask (mask : list bool) (train : list nat) : result (list bool) :=
  match train with
  | [] => Ok mask
  | j :: r =>
      match set_nth mask j false with
      | Some mask' => clear_mask mask' r
      | None => Err IndexError
      end
  end.

(** [idx[cal_mask]]: the entries of [idx] whose mask entry is true. *)
Definition mask_select (idx : list nat) (mask : list bool) : list nat :=
  map fst (filter snd (combine idx mask)).

(** One iteration of [BootstrapSampler.gen_samples] for [y.size = n]; the
    [n] values of [np.random.choice(n, n, replace=True)] are the draws at
    positions [k], ..., [k + n - 1] of [draw]. *)
Definition bootstrap_sample (n : nat) (draw : nat -> nat) (k : nat)
    : result (list nat * list nat) :=
  let idx := seq 0 n in
  let train := map (fun t => draw (k + t)%nat) (seq 0 n) in
  match clear_mask (repeat true n) train with
  | Err e => Err e
  | Ok cal_mask => Ok (train, mask_select idx cal_mask)
  end.

(** [BootstrapSampler.gen_samples(x, y, n_samples, problem_type)], all
    [n_samples] pairs it yields. *)
Fixpoint bootstrap_gen_samples (n : nat) (draw : nat -> nat) (n_samples k : nat)
    : result (list (list nat * list nat)) :=
  match n_samples with
  | O => Ok []
  | S m =>
      match bootstrap_sample n draw k with
      | Err e => Err e
      | Ok s =>
          match bootstrap_gen_samples n draw m (k + n)%nat with
          | Err e => Err e
          | Ok r => Ok (s :: r)
          end
      end
  end.

(** The scikit-learn splitters that [CrossSampler] and [RandomSubSampler]
    delegate to. *)
Inductive splitter :=
| StratifiedKFold | KFold | StratifiedShuffleSplit | ShuffleSplit.

(** [CrossSampler.gen_samples]: the splitter chosen by
    [if problem_type == 'classification']. *)
Definition cross_sampler_splitter (problem_type : pyval) : splitter :=
  if pyval_eqb problem_type (PyStr "classification") then StratifiedKFold else KFold.

(** [RandomSubSampler.gen_samples]: the splitter chosen by the same test. *)
Definition random_subsampler_splitter (problem_type : pyval) : splitter :=
  if pyval_eqb problem_type (PyStr "classification")
  then StratifiedShuffleSplit else ShuffleSplit.

(* ------------------------------------------------------------------------- *)
(** ** [AggregatedCp.fit] with [cp_class = IcpClassifier] (acp.py) *)

(** [a[idx]] for an index array [idx]; an index out of range raises
    [IndexError]. *)
Fixpoint gather {A : Type} (l : list A) (idx : list nat) : result (list A) :=
  match idx with
  | [] => Ok []
  | i :: r =>
      match nth_error l i with
      | None => Err IndexError
      | Some a =>
          match gather l r with
          | Err e => Err e
          | Ok t => Ok (a :: t)
          end
      end
  end.

Section AcpFit.

(** Feature rows and fitted nonconformity functions. *)
Variables (X NC : Type).

(** [nc_class( **nc_class_params)] followed by its [fit(x, y)]: the fitted
    nonconformity function. *)
Variable nc_fit : list X -> list Z -> NC.

(** [calc_nc] of a fitted nonconformity function. *)
Variable nc_calc : NC -> list X -> list Z -> list Q.

(** An ensemble member: its own nonconformity function and classifier. *)
Definition acp_member : Type := (NC * icp_classifier X)%type.

(** One iteration of the loop of [AggregatedCp.fit]:
      predictor = self.cp_class(self.nc_class( **self.nc_class_params))
      predictor.fit(x[train, :], y[train])
      predictor.calibrate(x[cal, :], y[cal])
    [IcpClassifier] is built with its default [smoothing=True]. *)
Definition fit_member (x : list X) (y : list Z) (train cal : list nat)
    : result acp_member :=
  match gather x train with
  | Err e => Err e
  | Ok xt =>
      match gather y train with
      | Err e => Err e
      | Ok yt =>
          let nc := nc_fit xt yt in
          match gather x cal with
          | Err e => Err e
          | Ok xc =>
              match gather y cal with
              | Err e => Err e
              | Ok yc =>
                  Ok (nc, classifier_calibrate (nc_calc nc) (classifier_init true)
                            xc yc false)
              end
          end
      end
  end.

(** The loop [for train, cal in samples: ... self.predictors.append(...)];
    returns [self.predictors] as the loop leaves it and the exception that
    stopped it, if any. *)
Fixpoint fit_members (x : list X) (y : list Z) (samples : list (list nat * list nat))
    (predictors : list acp_member) : list acp_member * option exn :=
  match samples with
  | [] => (predictors, None)
  | (train, cal) :: r =>
      match fit_member x y train cal with
      | Err e => (predictors, Some e)
      | Ok p => fit_members x y r (predictors ++ [p])%list
      end
  end.

(** [AggregatedCp.fit(x, y)] with [cp_class = IcpClassifier]. [perm] is the
    result of [np.random.permutation(y.size)]; [gen_samples] is
    [self.sampler.gen_samples], given the permuted data, [n_models] and the
    problem type. Returns [self.predictors] afterwards and the exception
    raised, if any. *)
Definition acp_fit
    (gen_samples : list X -> list Z -> nat -> pyval ->
                   result (list (list nat * list nat)))
    (n_models : nat) (x : list X) (y : list Z) (perm : list nat)
    : list acp_member * option exn :=
  match gather x perm with
  | Err e => ([], Some e)
  | Ok xp =>
      match gather y perm with
      | Err e => ([], Some e)
      | Ok yp =>
          match get_problem_type IcpClassifier with
          | Err e => ([], Some e)
          | Ok pt =>
              match gen_samples xp yp n_models pt with
              | Err e => ([], Some e)
              | Ok samples => fit_members xp yp samples []
              end
          end
      end
  end.

End AcpFit.

Arguments fit_member {X NC} nc_fit nc_calc x y train cal.
Arguments fit_members {X NC} nc_fit nc_calc x y samples predictors.
Arguments acp_fit {X NC} nc_fit nc_calc gen_samples n_models x y perm.

(** [BootstrapSampler().gen_samples] as a sampler: it reads only [y.size]. *)
Definition bootstrap_sampler {X : Type} (draw : nat -> nat) (k : nat)
    (x : list X) (y : list Z) (n_samples : nat) (problem_type : pyval)
    : result (list (list nat * list nat)) :=
  bootstrap_gen_samples (List.length y) draw n_samples k.

(** [m[j, i]] when both indices are in range. *)
Definition mat_get {A : Type} (m : list (list A)) (j i : nat) : option A :=
  match nth_error m j with
  | Some row => nth_error row i
  | None => None
  end.

(** The state of one ensemble member after a successful iteration. *)
Definition member_fitted {X NC : Type} (nc_fit : list X -> list Z -> NC)
    (nc_calc : NC -> list X -> list Z -> list Q) (x : list X) (y : list Z)
    (m : NC * icp_classifier X) (s : list nat * list nat) : Prop :=
  exists xt yt xc yc,
    gather x (fst s) = Ok xt /\ gather y (fst s) = Ok yt /\
    gather x (snd s) = Ok xc /\ gather y (snd s) = Ok yc /\
    fst m = nc_fit xt yt /\
    smoothing (snd m) = true /\
    classes (snd m) = Some (unique yc) /\
    cal_x (base (snd m)) = Some xc /\
    cal_y (base (snd m)) = Some yc /\
    cal_scores (base (snd m)) = Some (nc_calc (fst m) xc yc).

(** ** Concrete instances *)

(** A nonconformity function on integer features: [|x - y|] per row. *)
Definition abs_nc (x : list Z) (y : list Z) : list Q :=
  map (fun '(a, b) => inject_Z (Z.abs (a - b))) (combine x y).

(** A generator that always draws [1/2]. *)
Definition half_rng (m : nat) : Q := 1 # 2.

(** A classifier without smoothing calibrated on four examples; its
    calibration scores are [[0; 0; 1; 1]] and its classes [[0; 1]]. *)
Definition example_classifier : icp_classifier Z :=
  classifier_calibrate abs_nc (classifier_init false)
    [0; 1; 1; 2]%Z [0; 1; 0; 1]%Z false.

(** Its p-values for the queries [[0; 1; 5]]. *)
Definition example_pvalues : list (list Q) :=
  [[25 # 25; 15 # 25]; [15 # 25; 25 # 25]; [5 # 25; 5 # 25]].

(** A second classifier without smoothing, calibrated on two examples; its
    calibration scores are [[0; 1]]. *)
Definition example_classifier2 : icp_classifier Z :=
  classifier_calibrate abs_nc (classifier_init false) [0; 2]%Z [0; 1]%Z false.

(** [p.predict(x, s)] of an ensemble member that is an [IcpClassifier] over
    [abs_nc], read as its p-value matrix. *)
Definition icp_pvalues (st : icp_classifier Z) (x : list Z) (s : option Q)
    : list (list Q) :=
  match classifier_predict abs_nc half_rng st x s 0 with
  | Ok (OutP p, _) => p
  | _ => []
  end.

(** A stream of draws from [range(3)]: [t * t mod 3] at position [t]. *)
Definition square_draw (t : nat) : nat := (t * t) mod 3.

(** A nonconformity class whose [fit] keeps no state and whose [calc_nc] is
    [abs_nc]. *)
Definition abs_fit (x : list Z) (y : list Z) : unit := tt.
Definition abs_calc (nc : unit) (x : list Z) (y : list Z) : list Q := abs_nc x y.

(* ========================================================================= *)
(** * Properties *)

(** ** Helper lemmas *)

Lemma In_ins_uniq (a b : Z) (l : list Z) :
  In a (ins_uniq b l) <-> a = b \/ In a l.
Proof.
  induction l as [|h r IH]; simpl.
  - intuition congruence.
  - destruct (b <? h)%Z; [simpl; intuition congruence|].
    destruct (Z.eqb_spec b h) as [->|_]; [simpl; intuition congruence|].
    simpl; rewrite IH; intuition congruence.
Qed.

Lemma In_unique (a : Z) (l : list Z) : In a (unique l) <-> In a l.
Proof.
  induction l as [|h r IH]; simpl; [tauto|].
  rewrite In_ins_uniq, IH; intuition congruence.
Qed.

Lemma count_ge_le (cs : list Q) (nc : Q) : (count_ge cs nc <= List.length cs)%nat.
Proof.
  induction cs as [|s r IH]; simpl; [lia|].
  destruct (Qle_bool nc s); lia.
Qed.

Lemma Q_of_nat_pos (m : nat) : 0 < Q_of_nat (m + 1).
Proof.
  unfold Q_of_nat, Qlt; simpl; lia.
Qed.

Lemma Q_of_nat_le (a b : nat) : (a <= b)%nat -> Q_of_nat a <= Q_of_nat b.
Proof.
  intro H; unfold Q_of_nat; rewrite <- Zle_Qle; lia.
Qed.

Lemma Q_of_nat_succ (m : nat) : Q_of_nat (m + 1) == Q_of_nat m + 1.
Proof.
  unfold Q_of_nat; rewrite Nat2Z.inj_add, inject_Z_plus; reflexivity.
Qed.

Lemma nth_map_seq (f : nat -> Q) (n j : nat) :
  (j < n)%nat -> nth j (map f (seq 0 n)) 0 = f j.
Proof.
  intro Hj.
  rewrite (nth_indep _ 0 (f 0%nat)) by (rewrite length_map, length_seq; lia).
  rewrite map_nth, seq_nth by lia; reflexivity.
Qed.

Section ColumnLemmas.
Context {X : Type} (calc_nc : list X -> list Z -> list Q) (rng : nat -> Q).

(** A computed column: generator position, length and entries. *)
Lemma class_column_spec cal (x : list X) c smooth k col k1 :
  class_column calc_nc rng cal x c smooth k = Ok (col, k1) ->
  exists cs, cal = Some cs /\
    k1 = (if smooth then k + List.length x else k)%nat /\
    List.length col = List.length x /\
    forall j, (j < List.length x)%nat ->
      nth j col 0 =
        (match nth_error (calc_nc x (repeat c (List.length x))) j with
         | Some nc => Q_of_nat (count_ge cs nc) / Q_of_nat (List.length cs + 1)
         | None => 0
         end) +
        (if smooth then rng (k + j)%nat / Q_of_nat (List.length cs + 1)
         else 1 / Q_of_nat (List.length cs + 1)).
Proof.
  unfold class_column.
  destruct cal as [cs|]; [|discriminate].
  destruct (_ <? _)%nat; [discriminate|].
  destruct smooth; intro H; inversion H; subst; exists cs;
    (split; [reflexivity|]); (split; [reflexivity|]);
    (split; [rewrite length_map, length_seq; reflexivity|]);
    intros j Hj; rewrite nth_map_seq by exact Hj; reflexivity.
Qed.

(** The class loop: one column per class, class [i] reading the generator
    from position [k + i * n] when smoothing. *)
Lemma class_columns_spec cal (x : list X) cls smooth :
  forall k cols k',
  class_columns calc_nc rng cal x cls smooth k = Ok (cols, k') ->
  List.length cols = List.length cls /\
  k' = (if smooth then k + List.length cls * List.length x else k)%nat /\
  forall i c, nth_error cls i = Some c ->
    exists col k0, nth_error cols i = Some col /\
      class_column calc_nc rng cal x c smooth
        (if smooth then k + i * List.length x else k)%nat = Ok (col, k0).
Proof.
  induction cls as [|c r IH]; intros k cols k' H; simpl in H.
  - inversion H; subst.
    split; [reflexivity|]. split; [destruct smooth; simpl; lia|].
    intros i c Hc; destruct i; discriminate.
  - destruct (class_column calc_nc rng cal x c smooth k) as [[col k1]|e] eqn:Hc;
      [|discriminate].
    destruct (class_columns calc_nc rng cal x r smooth k1) as [[cols' k2]|e] eqn:Hr;
      [|discriminate].
    inversion H; subst.
    destruct (IH _ _ _ Hr) as (Hlen & Hk & Hnth).
    destruct (class_column_spec _ _ _ _ _ _ _ Hc) as (cs & _ & Hk1 & _).
    split; [simpl; lia|].
    split; [rewrite Hk, Hk1; destruct smooth; simpl; lia|].
    intros [|i] c' Hi; simpl in Hi.
    + injection Hi as <-. exists col, k1. split; [reflexivity|].
      destruct smooth; [|exact Hc].
      replace (k + 0 * List.length x)%nat with k by lia; exact Hc.
    + destruct (Hnth i c' Hi) as (col' & k0 & Hcol & Hcc).
      exists col', k0. split; [exact Hcol|].
      destruct smooth; subst; [|exact Hcc].
      replace (k + S i * List.length x)%nat with (k + List.length x + i * List.length x)%nat
        by lia; exact Hcc.
Qed.

(** Without smoothing the columns do not depend on the generator position. *)
Lemma class_columns_nosmooth cal (x : list X) cls :
  forall k1 k2 cols1 cols2 k1' k2',
  class_columns calc_nc rng cal x cls false k1 = Ok (cols1, k1') ->
  class_columns calc_nc rng cal x cls false k2 = Ok (cols2, k2') ->
  cols1 = cols2.
Proof.
  induction cls as [|c r IH]; intros k1 k2 cols1 cols2 k1' k2' H1 H2;
    simpl in H1, H2.
  - inversion H1; inversion H2; reflexivity.
  - unfold class_column in H1, H2 at 1.
    destruct cal as [cs|]; [|discriminate].
    destruct (_ <? _)%nat; [discriminate|].
    destruct (class_columns calc_nc rng (Some cs) x r false k1) as [[c1 j1]|e] eqn:E1;
      [|discriminate].
    destruct (class_columns calc_nc rng (Some cs) x r false k2) as [[c2 j2]|e] eqn:E2;
      [|discriminate].
    inversion H1; inversion H2; subst.
    f_equal; eapply IH; eassumption.
Qed.

End ColumnLemmas.

(** Entry [(j, i)] of the matrix built from columns. *)
Lemma rows_of_columns_entry (n : nat) (cols : list (list Q)) (j i : nat)
    (col : list Q) :
  (j < n)%nat -> nth_error cols i = Some col ->
  exists row, nth_error (rows_of_columns n cols) j = Some row /\
    nth_error row i = Some (nth j col 0).
Proof.
  intros Hj Hi. unfold rows_of_columns.
  rewrite nth_error_map, nth_error_seq.
  destruct (Nat.ltb_spec j n); [|lia]. simpl.
  eexists; split; [reflexivity|].
  rewrite nth_error_map, Hi; reflexivity.
Qed.

(** Every entry of the matrix is the entry of one of its columns. *)
Lemma rows_of_columns_Forall (P : Q -> Prop) (n : nat) (cols : list (list Q)) :
  Forall (fun col => forall j, (j < n)%nat -> P (nth j col 0)) cols ->
  Forall (Forall P) (rows_of_columns n cols).
Proof.
  intro H. unfold rows_of_columns.
  apply Forall_forall; intros row Hrow.
  apply in_map_iff in Hrow as (j & <- & Hj).
  apply in_seq in Hj.
  apply Forall_forall; intros a Ha.
  apply in_map_iff in Ha as (col & <- & Hcol).
  rewrite Forall_forall in H; apply H; [exact Hcol|lia].
Qed.

Lemma entry_bounds (e u N M : Q) :
  0 < N -> N == M + 1 -> 0 <= e -> e * N <= M -> 0 <= u <= 1 ->
  0 <= e + u / N <= 1 /\ 1 / N <= e + 1 / N.
Proof.
  intros HN HM He HeN Hu.
  assert (Hd : u / N * N == u) by (field; intro H; rewrite H in HN; discriminate).
  assert (H0 : 0 <= u / N).
  { apply Qle_shift_div_l; [exact HN|]. rewrite Qmult_0_l; apply Hu. }
  split; [split|].
  - lra.
  - assert (Hmul : (e + u / N) * N <= 1 * N) by (rewrite Qmult_plus_distr_l, Hd; lra).
    apply Qmult_le_r in Hmul; [exact Hmul|exact HN].
  - lra.
Qed.

(** The count term of a p-value. *)
Lemma count_term_bounds (cs : list Q) (nc : Q) :
  0 <= Q_of_nat (count_ge cs nc) / Q_of_nat (List.length cs + 1) /\
  Q_of_nat (count_ge cs nc) / Q_of_nat (List.length cs + 1) *
    Q_of_nat (List.length cs + 1) <= Q_of_nat (List.length cs).
Proof.
  pose proof (Q_of_nat_pos (List.length cs)) as HN.
  pose proof (Q_of_nat_le _ _ (count_ge_le cs nc)) as Hle.
  assert (H0 : 0 <= Q_of_nat (count_ge cs nc)) by (apply (Q_of_nat_le 0); lia).
  split.
  - apply Qle_shift_div_l; [exact HN|]. rewrite Qmult_0_l; exact H0.
  - assert (Hd : Q_of_nat (count_ge cs nc) / Q_of_nat (List.length cs + 1) *
                 Q_of_nat (List.length cs + 1) == Q_of_nat (count_ge cs nc))
      by (field; intro H; rewrite H in HN; discriminate).
    rewrite Hd; exact Hle.
Qed.

(** ** C1: the problem-type tag *)

(** C1 (code_bug). [get_problem_type] reads [cls.__problem_type] inside the
    body of [BaseIcp], i.e. the mangled attribute [_BaseIcp__problem_type],
    which both subclasses inherit as [None]; their own assignments are stored
    under [_IcpClassifier__problem_type] and [_IcpRegressor__problem_type].
    So [IcpClassifier.get_problem_type()] and [IcpRegressor.get_problem_type()]
    both return [None], not 'classification' and 'regression'. *)
Theorem get_problem_type_none :
  get_problem_type IcpClassifier = Ok PyNone /\
  get_problem_type IcpRegressor = Ok PyNone /\
  getattr IcpClassifier "_IcpClassifier__problem_type" = Ok (PyStr "classification") /\
  getattr IcpRegressor "_IcpRegressor__problem_type" = Ok (PyStr "regression").
Proof. repeat split; reflexivity. Qed.

(** ** C2: significance passed to ensemble members *)

(** C2 (code_bug). Because [IcpRegressor.get_problem_type()] is [None],
    [is_regression] is false for a regression [AggregatedCp] too: its
    [predict] behaves as if every member's [predict] were called with
    [significance = None], whatever the member does with the argument. *)
Theorem acp_regressor_members_get_none {X P : Type}
    (member_predict : P -> list X -> option Q -> list (list Q))
    (p_agg_func : list (list (list Q)) -> list (list Q))
    (predictors : list P) (x : list X) (significance : option Q) :
  is_regression IcpRegressor = Ok false /\
  acp_predict member_predict p_agg_func IcpRegressor predictors x significance =
  acp_predict (fun p x' _ => member_predict p x' None) p_agg_func IcpRegressor
    predictors x significance.
Proof.
  assert (Hr : is_regression IcpRegressor = Ok false) by reflexivity.
  split; [exact Hr|].
  unfold acp_predict; rewrite Hr; reflexivity.
Qed.

(** ** C3: the p-value of a query-class pair *)

(** C3. For a calibrated classifier with calibration scores [cal], the entry
    of [predict(x)] for query [j] and the [i]-th known class [c] is
    [#{s in cal | s >= nc} / (n_cal + 1)] plus, with smoothing, the draw at
    generator position [k + i*n + j] (a distinct position for every
    query-class pair) divided by [n_cal + 1], and without smoothing
    [1 / (n_cal + 1)]; [nc] is the nonconformity score of [(x_j, c)].
    With smoothing the call consumes all its [m*n] draws, so the next call
    reads fresh ones. *)
Theorem classifier_predict_pvalue {X : Type}
    (calc_nc : list X -> list Z -> list Q) (rng : nat -> Q)
    (st : icp_classifier X) (x : list X) (k k1 : nat) (cls : list Z)
    (cal : list Q) (p : list (list Q)) (i j : nat) (c : Z) (nc : Q) :
  classes st = Some cls ->
  cal_scores (base st) = Some cal ->
  classifier_predict calc_nc rng st x None k = Ok (OutP p, k1) ->
  nth_error cls i = Some c ->
  (j < List.length x)%nat ->
  nth_error (calc_nc x (repeat c (List.length x))) j = Some nc ->
  (exists row, nth_error p j = Some row /\
     nth_error row i =
       Some (Q_of_nat (count_ge cal nc) / Q_of_nat (List.length cal + 1) +
             (if smoothing st
              then rng (k + i * List.length x + j)%nat / Q_of_nat (List.length cal + 1)
              else 1 / Q_of_nat (List.length cal + 1)))) /\
  k1 = (if smoothing st then k + List.length cls * List.length x else k)%nat.
Proof.
  intros Hcls Hcal Hp Hc Hj Hnc.
  unfold classifier_predict in Hp. rewrite Hcls, Hcal in Hp.
  destruct (class_columns calc_nc rng (Some cal) x cls (smoothing st) k)
    as [[cols k2]|e] eqn:Hcols; [|discriminate].
  injection Hp as Hp1 Hk2; subst p k2.
  destruct (class_columns_spec calc_nc rng _ _ _ _ _ _ _ Hcols) as (_ & Hk & Hnth).
  split; [|exact Hk].
  destruct (Hnth i c Hc) as (col & k0 & Hcol & Hcc).
  destruct (class_column_spec calc_nc rng _ _ _ _ _ _ _ Hcc)
    as (cs & Hcs & _ & _ & Hent).
  injection Hcs as <-.
  destruct (rows_of_columns_entry _ _ _ _ _ Hj Hcol) as (row & Hrow & Hri).
  exists row; split; [exact Hrow|].
  rewrite Hri, (Hent j Hj), Hnc. destruct (smoothing st); reflexivity.
Qed.

(** ** C4: the two thresholds *)

Lemma truthy_nonzero (e : Q) : ~ e == 0 -> truthy (Some e) = true.
Proof.
  intro H; unfold truthy.
  destruct (Qeq_bool e 0) eqn:E; [|reflexivity].
  apply Qeq_bool_iff in E; contradiction.
Qed.

Lemma truthy_zero (z : Q) : z == 0 -> truthy (Some z) = false.
Proof.
  intro H; unfold truthy. apply Qeq_bool_iff in H; rewrite H; reflexivity.
Qed.

Lemma Qltb_spec (e a : Q) : Qltb e a = true <-> e < a.
Proof.
  unfold Qltb; rewrite negb_true_iff; split; intro H.
  - apply Qnot_le_lt; intro Hle; apply Qle_bool_iff in Hle; congruence.
  - destruct (Qle_bool a e) eqn:E; [|reflexivity].
    apply Qle_bool_iff in E; exfalso; exact (Qlt_not_le _ _ H E).
Qed.

(** C4. At a nonzero significance [e], [IcpClassifier.predict] marks a label
    iff its p-value (the one [predict(x)] returns for the same generator
    state) is strictly greater than [e], while a classification
    [AggregatedCp.predict] marks a label iff the aggregated p-value of the
    members' raw outputs is greater than or equal to [e]. *)
Theorem threshold_icp_strict_acp_nonstrict {X P : Type}
    (calc_nc : list X -> list Z -> list Q) (rng : nat -> Q)
    (st : icp_classifier X) (x : list X) (k : nat) (e : Q)
    (member_predict : P -> list X -> option Q -> list (list Q))
    (p_agg_func : list (list (list Q)) -> list (list Q)) (predictors : list P) :
  ~ e == 0 ->
  (forall p k1, classifier_predict calc_nc rng st x None k = Ok (OutP p, k1) ->
     classifier_predict calc_nc rng st x (Some e) k =
       Ok (OutB (map (map (fun a => Qltb e a)) p), k1)) /\
  acp_predict member_predict p_agg_func IcpClassifier predictors x (Some e) =
    Ok (OutB (map (map (fun a => Qle_bool e a))
                  (p_agg_func (map (fun p => member_predict p x None) predictors)))) /\
  (forall a, Qltb e a = true <-> e < a) /\
  (forall a, Qle_bool e a = true <-> e <= a).
Proof.
  intro He. pose proof (truthy_nonzero e He) as Ht.
  split; [|split; [|split]].
  - intros p k1 Hp. unfold classifier_predict in *.
    destruct (classes st) as [cls|]; [|discriminate].
    destruct (class_columns calc_nc rng (cal_scores (base st)) x cls (smoothing st) k)
      as [[cols k2]|err]; [|discriminate].
    injection Hp as <- <-. rewrite Ht; reflexivity.
  - unfold acp_predict.
    replace (is_regression IcpClassifier) with (Ok false) by reflexivity.
    rewrite Ht; reflexivity.
  - exact (Qltb_spec e).
  - intro a; apply Qle_bool_iff.
Qed.

(** ** C5: updating the calibration set *)

(** C5. [calibrate(x, y, False)] sets the calibration set to [(x, y)];
    [calibrate(x, y, True)] appends [(x, y)] to an existing set and acts as
    [calibrate(x, y, False)] when there is none; in every case the scores
    are [calc_nc] of the whole resulting set. The classifier's [calibrate]
    updates its base state the same way. *)
Theorem calibrate_calibration_set {X : Type}
    (calc_nc : list X -> list Z -> list Q) (st : base_icp X)
    (x : list X) (y : list Z) :
  base_calibrate calc_nc st x y false =
    {| cal_x := Some x; cal_y := Some y; cal_scores := Some (calc_nc x y) |} /\
  (forall cx cy, cal_x st = Some cx -> cal_y st = Some cy ->
     base_calibrate calc_nc st x y true =
       {| cal_x := Some (cx ++ x)%list; cal_y := Some (cy ++ y)%list;
          cal_scores := Some (calc_nc (cx ++ x)%list (cy ++ y)%list) |}) /\
  ((cal_x st = None \/ cal_y st = None) ->
     base_calibrate calc_nc st x y true = base_calibrate calc_nc st x y false) /\
  (forall (cst : icp_classifier X) increment,
     base (classifier_calibrate calc_nc cst x y increment) =
     base_calibrate calc_nc (base cst) x y increment).
Proof.
  unfold base_calibrate, update_calibration_set, recompute_scores.
  split; [|split; [|split]].
  - reflexivity.
  - intros cx cy -> ->; reflexivity.
  - intros [H|H]; rewrite H; [reflexivity|]. destruct (cal_x st); reflexivity.
  - reflexivity.
Qed.

(** ** C6: predicting before calibration *)

(** C6 (corrected). On a freshly constructed classifier or regressor,
    [predict] fails with an [AttributeError] ([self.classes.size] on
    [None], or the unset [self.cal_scores]); no output is produced. *)
Theorem predict_uncalibrated_attribute_error {X : Type}
    (calc_nc : list X -> list Z -> list Q) (rng : nat -> Q) (smooth : bool)
    (x : list X) (significance : option Q) (k : nat) :
  classifier_predict calc_nc rng (classifier_init smooth) x significance k =
    Err AttributeError /\
  (forall (O : Type) (nc_predict : list X -> list Q -> option Q -> O),
     regressor_predict nc_predict regressor_init x significance = Err AttributeError).
Proof. split; reflexivity. Qed.

(** ** C7: range of the p-values *)

(** C7. With draws of the generator in [[0, 1]], every entry of the p-value
    matrix [predict(x)] of a classifier with calibration scores [cal] lies
    in [[0, 1]], and without smoothing every entry is at least
    [1 / (n_cal + 1)]. *)
Theorem classifier_pvalues_bounded {X : Type}
    (calc_nc : list X -> list Z -> list Q) (rng : nat -> Q)
    (st : icp_classifier X) (x : list X) (k k1 : nat) (cal : list Q)
    (p : list (list Q)) :
  (forall m, 0 <= rng m <= 1) ->
  cal_scores (base st) = Some cal ->
  classifier_predict calc_nc rng st x None k = Ok (OutP p, k1) ->
  Forall (Forall (fun a => 0 <= a <= 1)) p /\
  (smoothing st = false ->
   Forall (Forall (fun a => 1 / Q_of_nat (List.length cal + 1) <= a)) p).
Proof.
  intros Hrng Hcal Hp.
  unfold classifier_predict in Hp. rewrite Hcal in Hp.
  destruct (classes st) as [cls|]; [|discriminate].
  destruct (class_columns calc_nc rng (Some cal) x cls (smoothing st) k)
    as [[cols k2]|err] eqn:Hcols; [|discriminate].
  injection Hp as Hp1 _; subst p.
  destruct (class_columns_spec calc_nc rng _ _ _ _ _ _ _ Hcols) as (Hlen & _ & Hnth).
  pose proof (Q_of_nat_pos (List.length cal)) as HN.
  pose proof (Q_of_nat_succ (List.length cal)) as HM.
  assert (Hcolspec : Forall (fun col => forall j, (j < List.length x)%nat ->
            (0 <= nth j col 0 <= 1) /\
            (smoothing st = false -> 1 / Q_of_nat (List.length cal + 1) <= nth j col 0))
            cols).
  { apply Forall_forall; intros col Hin.
    destruct (In_nth_error _ _ Hin) as (i & Hi).
    assert (Hicls : nth_error cls i <> None).
    { apply nth_error_Some; rewrite <- Hlen; apply nth_error_Some; congruence. }
    destruct (nth_error cls i) as [c|] eqn:Hc; [|congruence].
    destruct (Hnth i c Hc) as (col' & k0 & Hcol' & Hcc).
    rewrite Hi in Hcol'; injection Hcol' as <-.
    destruct (class_column_spec calc_nc rng _ _ _ _ _ _ _ Hcc)
      as (cs & Hcs & _ & _ & Hent).
    injection Hcs as <-.
    intros j Hj; rewrite (Hent j Hj).
    assert (Hterm : exists e, 0 <= e /\
              e * Q_of_nat (List.length cal + 1) <= Q_of_nat (List.length cal) /\
              (match nth_error (calc_nc x (repeat c (List.length x))) j with
               | Some nc => Q_of_nat (count_ge cal nc) / Q_of_nat (List.length cal + 1)
               | None => 0
               end) = e).
    { destruct (nth_error (calc_nc x (repeat c (List.length x))) j) as [nc|].
      - destruct (count_term_bounds cal nc) as [He HeN]. eauto.
      - exists 0. split; [apply Qle_refl|]. split; [|reflexivity].
        rewrite Qmult_0_l; apply (Q_of_nat_le 0); lia. }
    destruct Hterm as (e & He & HeN & ->).
    destruct (smoothing st).
    + split; [apply (entry_bounds _ _ _ _ HN HM He HeN (Hrng _))|discriminate].
    + destruct (entry_bounds e 1 _ _ HN HM He HeN) as [Hb Hl]; [lra|].
      split; [exact Hb|intros _; exact Hl]. }
  split.
  - apply rows_of_columns_Forall.
    eapply Forall_impl; [|exact Hcolspec]. intros col H j Hj; apply (H j Hj).
  - intro Hs. apply rows_of_columns_Forall.
    eapply Forall_impl; [|exact Hcolspec]. intros col H j Hj; apply (H j Hj), Hs.
Qed.

(** ** C8: monotonicity of the prediction sets *)

Lemma gt_matrix_mono (p : list (list Q)) (e1 e2 : Q) :
  e2 <= e1 ->
  Forall2 (Forall2 (fun a b => implb a b = true)) (gt_matrix p e1) (gt_matrix p e2).
Proof.
  intro Hle. unfold gt_matrix.
  induction p as [|r p IH]; simpl; constructor; [|exact IH].
  induction r as [|a r IHr]; simpl; constructor; [|exact IHr].
  destruct (Qltb e1 a) eqn:E; [|reflexivity].
  apply Qltb_spec in E. simpl. apply Qltb_spec.
  exact (Qle_lt_trans _ _ _ Hle E).
Qed.

(** C8 (corrected). The prediction set at [e1] is included in the one at
    [e2 <= e1] (both nonzero) when the two calls compute the same p-values:
    always without smoothing, and with smoothing when both calls read the
    generator from the same position; separate calls with smoothing read
    fresh draws and the inclusion can fail. *)
Theorem classifier_sets_monotone {X : Type}
    (calc_nc : list X -> list Z -> list Q) (rng : nat -> Q)
    (st : icp_classifier X) (x : list X) (e1 e2 : Q) (k1 k2 k1' k2' : nat)
    (b1 b2 : list (list bool)) :
  (smoothing st = false \/ k1 = k2) ->
  ~ e1 == 0 -> ~ e2 == 0 -> e2 <= e1 ->
  classifier_predict calc_nc rng st x (Some e1) k1 = Ok (OutB b1, k1') ->
  classifier_predict calc_nc rng st x (Some e2) k2 = Ok (OutB b2, k2') ->
  Forall2 (Forall2 (fun a b => implb a b = true)) b1 b2.
Proof.
  intros Hsame He1 He2 Hle H1 H2.
  unfold classifier_predict in H1, H2.
  destruct (classes st) as [cls|]; [|discriminate].
  destruct (class_columns calc_nc rng (cal_scores (base st)) x cls (smoothing st) k1)
    as [[c1 j1]|err] eqn:E1; [|discriminate].
  destruct (class_columns calc_nc rng (cal_scores (base st)) x cls (smoothing st) k2)
    as [[c2 j2]|err] eqn:E2; [|discriminate].
  rewrite (truthy_nonzero _ He1) in H1. rewrite (truthy_nonzero _ He2) in H2.
  injection H1 as <- _. injection H2 as <- _.
  assert (c1 = c2) as <-.
  { destruct Hsame as [Hs| <-].
    - rewrite Hs in E1, E2. exact (class_columns_nosmooth _ _ _ _ _ _ _ _ _ _ _ E1 E2).
    - congruence. }
  apply gt_matrix_mono; exact Hle.
Qed.

(** C8 counterexample. A smoothed classifier calibrated on one example with
    score 1, queried at a point of score 1: the first call draws 0.9, giving
    the p-value 0.95, so the label is in the set at significance 0.9; the
    next call draws 0.1, giving 0.55, so the label is not in the set at the
    smaller significance 0.6. *)
Lemma classifier_sets_not_monotone_across_calls :
  (3 # 5) <= (9 # 10) /\
  classifier_predict (fun x _ => map (fun _ => 1) x)
    (fun m => if Nat.eqb m 0 then 9 # 10 else 1 # 10)
    (classifier_calibrate (fun x _ => map (fun _ => 1) x)
       (classifier_init true) [5%Z] [0%Z] false)
    [7%Z] (Some (9 # 10)) 0 = Ok (OutB [[true]], 1%nat) /\
  classifier_predict (fun x _ => map (fun _ => 1) x)
    (fun m => if Nat.eqb m 0 then 9 # 10 else 1 # 10)
    (classifier_calibrate (fun x _ => map (fun _ => 1) x)
       (classifier_init true) [5%Z] [0%Z] false)
    [7%Z] (Some (3 # 5)) 1 = Ok (OutB [[false]], 2%nat).
Proof.
  split; [unfold Qle; simpl; lia|].
  split; vm_compute; reflexivity.
Qed.

(** ** C9: the known classes under incremental calibration *)

(** C9. An incremental [calibrate] call leaves as known classes exactly the
    previous ones together with the labels of the new [y] (so none is
    removed), a sequence of incremental calls never loses a class, and only
    a non-incremental call, which resets the classes to the labels of [y],
    can drop one. *)
Theorem classes_grow_incrementally {X : Type}
    (calc_nc : list X -> list Z -> list Q) :
  (forall (st : icp_classifier X) x y c,
     In c (known_classes (classifier_calibrate calc_nc st x y true)) <->
     In c (known_classes st) \/ In c y) /\
  (forall (st : icp_classifier X) x y c,
     In c (known_classes (classifier_calibrate calc_nc st x y false)) <-> In c y) /\
  (forall calls (st : icp_classifier X),
     incl (known_classes st) (known_classes (calibrate_incremental calc_nc st calls))).
Proof.
  assert (Hstep : forall (st : icp_classifier X) x y c,
     In c (known_classes (classifier_calibrate calc_nc st x y true)) <->
     In c (known_classes st) \/ In c y).
  { intros st x y c. unfold known_classes, classifier_calibrate, update_classes; simpl.
    destruct (classes st) as [cs|]; rewrite In_unique; [apply in_app_iff|simpl; tauto]. }
  split; [exact Hstep|split].
  - intros st x y c. unfold known_classes, classifier_calibrate, update_classes; simpl.
    destruct (classes st); apply In_unique.
  - intro calls; induction calls as [|[x y] calls IH]; intro st; simpl.
    + apply incl_refl.
    + eapply incl_tran; [|apply IH].
      intros c Hc; apply Hstep; left; exact Hc.
Qed.

(** ** C10: significance zero *)

(** C10. A significance equal to zero is false in [if significance:], so
    [IcpClassifier.predict] returns the same p-value matrix as with [None],
    and a classification [AggregatedCp.predict] returns the aggregated
    p-values of the members, not a boolean matrix. *)
Theorem zero_significance_returns_pvalues {X P : Type}
    (calc_nc : list X -> list Z -> list Q) (rng : nat -> Q)
    (st : icp_classifier X) (x : list X) (k : nat) (z : Q)
    (member_predict : P -> list X -> option Q -> list (list Q))
    (p_agg_func : list (list (list Q)) -> list (list Q)) (predictors : list P) :
  z == 0 ->
  classifier_predict calc_nc rng st x (Some z) k =
    classifier_predict calc_nc rng st x None k /\
  (forall out k1, classifier_predict calc_nc rng st x (Some z) k = Ok (out, k1) ->
     exists p, out = OutP p) /\
  acp_predict member_predict p_agg_func IcpClassifier predictors x (Some z) =
    Ok (OutP (p_agg_func (map (fun p => member_predict p x None) predictors))).
Proof.
  intro Hz. pose proof (truthy_zero z Hz) as Ht.
  assert (Heq : classifier_predict calc_nc rng st x (Some z) k =
                classifier_predict calc_nc rng st x None k).
  { unfold classifier_predict.
    destruct (classes st) as [cls|]; [|reflexivity].
    destruct (class_columns calc_nc rng (cal_scores (base st)) x cls (smoothing st) k)
      as [[cols k2]|err]; [|reflexivity].
    rewrite Ht; reflexivity. }
  split; [exact Heq|split].
  - intros out k1 H. rewrite Heq in H. unfold classifier_predict in H.
    destruct (classes st) as [cls|]; [|discriminate].
    destruct (class_columns calc_nc rng (cal_scores (base st)) x cls (smoothing st) k)
      as [[cols k2]|err]; [|discriminate].
    injection H as <- _; eexists; reflexivity.
  - unfold acp_predict.
    replace (is_regression IcpClassifier) with (Ok false) by reflexivity.
    rewrite Ht; reflexivity.
Qed.

(** ** Witnesses *)

(** C3 witness: query [0] with class [1] on [example_classifier]. *)
Lemma classifier_predict_pvalue_witness :
  (exists row, nth_error example_pvalues 0 = Some row /\
     nth_error row 1 =
       Some (Q_of_nat (count_ge [0; 0; 1; 1] 1) / Q_of_nat (4 + 1) +
             1 / Q_of_nat (4 + 1))) /\
  0%nat = 0%nat.
Proof.
  apply (classifier_predict_pvalue abs_nc half_rng example_classifier
           [0; 1; 5]%Z 0 0 [0; 1]%Z [0; 0; 1; 1] example_pvalues 1 0 1%Z 1);
    try reflexivity; simpl; lia.
Defined.

(** C4 witness: significance [1/2] on [example_classifier] and on a
    one-member ensemble. *)
Lemma threshold_icp_strict_acp_nonstrict_witness :
  classifier_predict abs_nc half_rng example_classifier [0; 1; 5]%Z
    (Some (1 # 2)) 0 = Ok (OutB (map (map (fun a => Qltb (1 # 2) a)) example_pvalues), 0%nat) /\
  acp_predict (X:=Z) (fun (_ : unit) _ _ => [[1 # 2]]) (fun l => hd [] l)
    IcpClassifier [tt] [0; 1; 5]%Z (Some (1 # 2)) = Ok (OutB [[true]]).
Proof.
  destruct (threshold_icp_strict_acp_nonstrict (X:=Z) (P:=unit) abs_nc half_rng
              example_classifier [0; 1; 5]%Z 0 (1 # 2)
              (fun _ _ _ => [[1 # 2]]) (fun l => hd [] l) [tt])
    as (Hicp & Hacp & _).
  - unfold Qeq; simpl; lia.
  - split.
    + apply Hicp; vm_compute; reflexivity.
    + rewrite Hacp; reflexivity.
Defined.

(** C7 witness: the p-values of [example_classifier]. *)
Lemma classifier_pvalues_bounded_witness :
  Forall (Forall (fun a => 0 <= a <= 1)) example_pvalues /\
  (false = false ->
   Forall (Forall (fun a => 1 / Q_of_nat (4 + 1) <= a)) example_pvalues).
Proof.
  apply (classifier_pvalues_bounded abs_nc half_rng example_classifier
           [0; 1; 5]%Z 0 0 [0; 0; 1; 1] example_pvalues).
  - intro m; unfold half_rng, Qle; simpl; lia.
  - reflexivity.
  - vm_compute; reflexivity.
Defined.

(** C8 witness: significances [1/2] and [1/5] on [example_classifier]. *)
Lemma classifier_sets_monotone_witness :
  Forall2 (Forall2 (fun a b => implb a b = true))
    [[true; true]; [true; true]; [false; false]]
    [[true; true]; [true; true]; [false; false]].
Proof.
  apply (classifier_sets_monotone abs_nc half_rng example_classifier
           [0; 1; 5]%Z (1 # 2) (1 # 5) 0 0 0 0).
  - left; reflexivity.
  - unfold Qeq; simpl; lia.
  - unfold Qeq; simpl; lia.
  - unfold Qle; simpl; lia.
  - vm_compute; reflexivity.
  - vm_compute; reflexivity.
Defined.

(** C10 witness: significance [0/3] on [example_classifier]. *)
Lemma zero_significance_returns_pvalues_witness :
  classifier_predict abs_nc half_rng example_classifier [0; 1; 5]%Z (Some (0 # 3)) 0 =
  Ok (OutP example_pvalues, 0%nat).
Proof.
  destruct (zero_significance_returns_pvalues (X:=Z) (P:=unit) abs_nc half_rng
              example_classifier [0; 1; 5]%Z 0 (0 # 3)
              (fun _ _ _ => []) (fun l => hd [] l) [])
    as (Heq & _ & _).
  - unfold Qeq; reflexivity.
  - rewrite Heq; vm_compute; reflexivity.
Defined.

(** C6 counterexample: a fresh classifier reports an [AttributeError], not
    a [NotCalibratedError]. *)
Lemma predict_uncalibrated_not_NotCalibratedError :
  classifier_predict abs_nc half_rng (classifier_init true) [1%Z] None 0 =
    Err (Exn "AttributeError") /\
  classifier_predict abs_nc half_rng (classifier_init true) [1%Z] None 0 <>
    Err (Exn "NotCalibratedError").
Proof.
  split; [reflexivity|]. vm_compute. discriminate.
Qed.

(* ========================================================================= *)
(** * Further properties of the code *)

(** ** Inductive conformal classifier *)

(** Shape and entries of the p-value matrix of a calibrated classifier. *)
Lemma classifier_predict_spec {X : Type}
    (calc_nc : list X -> list Z -> list Q) (rng : nat -> Q)
    (st : icp_classifier X) (x : list X) (k k1 : nat) (cls : list Z)
    (cal : list Q) (p : list (list Q)) :
  classes st = Some cls ->
  cal_scores (base st) = Some cal ->
  classifier_predict calc_nc rng st x None k = Ok (OutP p, k1) ->
  is_matrix (List.length x) (List.length cls) p /\
  forall i c j, nth_error cls i = Some c -> (j < List.length x)%nat ->
    mat_get p j i =
      Some ((match nth_error (calc_nc x (repeat c (List.length x))) j with
             | Some nc => Q_of_nat (count_ge cal nc) / Q_of_nat (List.length cal + 1)
             | None => 0
             end) +
            (if smoothing st
             then rng (k + i * List.length x + j)%nat / Q_of_nat (List.length cal + 1)
             else 1 / Q_of_nat (List.length cal + 1))).
Proof.
  intros Hcls Hcal Hp.
  unfold classifier_predict in Hp. rewrite Hcls, Hcal in Hp.
  destruct (class_columns calc_nc rng (Some cal) x cls (smoothing st) k)
    as [[cols k2]|e] eqn:Hcols; [|discriminate].
  injection Hp as Hp1 _; subst p.
  destruct (class_columns_spec calc_nc rng _ _ _ _ _ _ _ Hcols) as (Hlen & _ & Hnth).
  split.
  - unfold is_matrix, rows_of_columns. rewrite length_map, length_seq.
    split; [reflexivity|].
    apply Forall_forall; intros row Hrow.
    apply in_map_iff in Hrow as (j & <- & _).
    rewrite length_map; exact Hlen.
  - intros i c j Hc Hj.
    destruct (Hnth i c Hc) as (col & k0 & Hcol & Hcc).
    destruct (class_column_spec calc_nc rng _ _ _ _ _ _ _ Hcc)
      as (cs & Hcs & _ & _ & Hent).
    injection Hcs as <-.
    destruct (rows_of_columns_entry _ _ _ _ _ Hj Hcol) as (row & Hrow & Hri).
    unfold mat_get; rewrite Hrow, Hri, (Hent j Hj).
    destruct (smoothing st); reflexivity.
Qed.

Lemma mat_get_bounds {A : Type} (n c : nat) (m : list (list A)) (j i : nat) (a : A) :
  is_matrix n c m -> mat_get m j i = Some a -> (j < n)%nat /\ (i < c)%nat.
Proof.
  intros [Hn Hc] H. unfold mat_get in H.
  destruct (nth_error m j) as [row|] eqn:Hj; [|discriminate].
  pose proof (nth_error_In _ _ Hj) as Hin.
  rewrite Forall_forall in Hc. specialize (Hc _ Hin).
  split.
  - rewrite <- Hn; apply nth_error_Some; congruence.
  - rewrite <- Hc; apply nth_error_Some; congruence.
Qed.

Lemma count_ge_antitone (cs : list Q) (nc1 nc2 : Q) :
  nc1 <= nc2 -> (count_ge cs nc2 <= count_ge cs nc1)%nat.
Proof.
  intro Hle. induction cs as [|s r IH]; simpl; [lia|].
  destruct (Qle_bool nc2 s) eqn:E2.
  - apply Qle_bool_iff in E2.
    assert (E1 : Qle_bool nc1 s = true) by (apply Qle_bool_iff; exact (Qle_trans _ _ _ Hle E2)).
    rewrite E1; lia.
  - destruct (Qle_bool nc1 s); lia.
Qed.

Lemma class_column_outcome {X : Type}
    (calc_nc : list X -> list Z -> list Q) (rng : nat -> Q)
    (cal : list Q) (x : list X) (c : Z) (smooth : bool) (k : nat) :
  ((List.length (calc_nc x (repeat c (List.length x))) <= List.length x)%nat ->
   exists col k1, class_column calc_nc rng (Some cal) x c smooth k = Ok (col, k1)) /\
  ((List.length x < List.length (calc_nc x (repeat c (List.length x))))%nat ->
   class_column calc_nc rng (Some cal) x c smooth k = Err IndexError).
Proof.
  unfold class_column.
  destruct (Nat.ltb_spec (List.length x) (List.length (calc_nc x (repeat c (List.length x)))))
    as [Hl|Hl]; split; intro H'; try lia; [reflexivity|].
  destruct smooth; eauto.
Qed.

Lemma class_columns_outcome {X : Type}
    (calc_nc : list X -> list Z -> list Q) (rng : nat -> Q)
    (cal : list Q) (x : list X) (cls : list Z) (smooth : bool) :
  forall k,
  ((forall c, In c cls -> (List.length (calc_nc x (repeat c (List.length x))) <= List.length x)%nat) ->
   exists cols k', class_columns calc_nc rng (Some cal) x cls smooth k = Ok (cols, k')) /\
  ((exists c, In c cls /\ (List.length x < List.length (calc_nc x (repeat c (List.length x))))%nat) ->
   class_columns calc_nc rng (Some cal) x cls smooth k = Err IndexError).
Proof.
  induction cls as [|c r IH]; intro k; cbn [class_columns].
  - split; [eauto|]. intros (c & [] & _).
  - destruct (class_column_outcome calc_nc rng cal x c smooth k) as [Hok Herr].
    destruct (Nat.ltb_spec (List.length x) (List.length (calc_nc x (repeat c (List.length x)))))
      as [Hlt|Hge].
    + rewrite (Herr Hlt). split; [|reflexivity].
      intro H. specialize (H c (or_introl eq_refl)). lia.
    + destruct (Hok Hge) as (col & k1 & Hc). rewrite Hc.
      destruct (IH k1) as [IHok IHerr].
      split.
      * intro H. destruct IHok as (cols & k' & Hr); [intros c' Hc'; apply H; right; exact Hc'|].
        rewrite Hr. eauto.
      * intros (c' & [<-|Hin] & Hlt); [lia|].
        rewrite IHerr; [reflexivity|eauto].
Qed.

(** X1. Without smoothing the p-value is antitone in the nonconformity
    score: over all queries and classes of one [predict(x)] call, a larger
    score never gets a larger p-value. *)
Theorem classifier_pvalue_antitone {X : Type}
    (calc_nc : list X -> list Z -> list Q) (rng : nat -> Q)
    (st : icp_classifier X) (x : list X) (k k1 : nat) (cls : list Z)
    (cal : list Q) (p : list (list Q)) (i1 i2 j1 j2 : nat) (c1 c2 : Z)
    (nc1 nc2 a1 a2 : Q) :
  smoothing st = false ->
  classes st = Some cls ->
  cal_scores (base st) = Some cal ->
  classifier_predict calc_nc rng st x None k = Ok (OutP p, k1) ->
  nth_error cls i1 = Some c1 ->
  nth_error cls i2 = Some c2 ->
  nth_error (calc_nc x (repeat c1 (List.length x))) j1 = Some nc1 ->
  nth_error (calc_nc x (repeat c2 (List.length x))) j2 = Some nc2 ->
  nc1 <= nc2 ->
  mat_get p j1 i1 = Some a1 ->
  mat_get p j2 i2 = Some a2 ->
  a2 <= a1.
Proof.
  intros Hs Hcls Hcal Hp Hc1 Hc2 Hn1 Hn2 Hle Ha1 Ha2.
  destruct (classifier_predict_spec calc_nc rng st x k k1 cls cal p Hcls Hcal Hp)
    as (Hm & Hent).
  destruct (mat_get_bounds _ _ _ _ _ _ Hm Ha1) as [Hj1 _].
  destruct (mat_get_bounds _ _ _ _ _ _ Hm Ha2) as [Hj2 _].
  rewrite (Hent i1 c1 j1 Hc1 Hj1), Hn1, Hs in Ha1.
  rewrite (Hent i2 c2 j2 Hc2 Hj2), Hn2, Hs in Ha2.
  injection Ha1 as <-. injection Ha2 as <-.
  apply Qplus_le_l. unfold Qdiv.
  apply Qmult_le_compat_r.
  - apply Q_of_nat_le, count_ge_antitone, Hle.
  - apply Qinv_le_0_compat, Qlt_le_weak, Q_of_nat_pos.
Qed.

(** X2. On a calibrated classifier, [predict(x)] returns an
    [n x |classes|] matrix when the nonconformity function gives at most one
    score per query row for every known class; when it gives more for some
    class, [predict] raises [IndexError] whatever the significance. *)
Theorem classifier_predict_outcome {X : Type}
    (calc_nc : list X -> list Z -> list Q) (rng : nat -> Q)
    (st : icp_classifier X) (x : list X) (k : nat) (cls : list Z) (cal : list Q) :
  classes st = Some cls ->
  cal_scores (base st) = Some cal ->
  ((forall c, In c cls ->
      (List.length (calc_nc x (repeat c (List.length x))) <= List.length x)%nat) ->
   exists p k1, classifier_predict calc_nc rng st x None k = Ok (OutP p, k1) /\
     is_matrix (List.length x) (List.length cls) p) /\
  ((exists c, In c cls /\
      (List.length x < List.length (calc_nc x (repeat c (List.length x))))%nat) ->
   forall significance,
     classifier_predict calc_nc rng st x significance k = Err IndexError).
Proof.
  intros Hcls Hcal.
  destruct (class_columns_outcome calc_nc rng cal x cls (smoothing st) k) as [Hok Herr].
  split.
  - intro H. destruct (Hok H) as (cols & k' & Hcols).
    assert (Hp : classifier_predict calc_nc rng st x None k =
                 Ok (OutP (rows_of_columns (List.length x) cols), k'))
      by (unfold classifier_predict; rewrite Hcls, Hcal, Hcols; reflexivity).
    exists (rows_of_columns (List.length x) cols), k'. split; [exact Hp|].
    exact (proj1 (classifier_predict_spec calc_nc rng st x k k' cls cal _ Hcls Hcal Hp)).
  - intros H significance.
    unfold classifier_predict; rewrite Hcls, Hcal, (Herr H); reflexivity.
Qed.

(** Helper lemmas on [np.unique]. *)
Lemma ins_uniq_hd (a b : Z) (l : list Z) :
  HdRel Z.lt b l -> (b < a)%Z -> HdRel Z.lt b (ins_uniq a l).
Proof.
  intros H Hb. destruct l as [|h r]; simpl.
  - constructor; exact Hb.
  - destruct (a <? h)%Z; [constructor; exact Hb|].
    destruct (a =? h)%Z; [exact H|].
    inversion H; constructor; assumption.
Qed.

Lemma ins_uniq_sorted (a : Z) (l : list Z) :
  Sorted Z.lt l -> Sorted Z.lt (ins_uniq a l).
Proof.
  induction l as [|h r IH]; intro H; simpl.
  - repeat constructor.
  - destruct (Z.ltb_spec a h) as [Hlt|Hge].
    + constructor; [exact H|constructor; exact Hlt].
    + destruct (Z.eqb_spec a h); [exact H|].
      inversion H; subst.
      constructor; [apply IH; assumption|apply ins_uniq_hd; [assumption|lia]].
Qed.

Lemma unique_sorted (l : list Z) : Sorted Z.lt (unique l).
Proof.
  induction l as [|h r IH]; simpl; [constructor|apply ins_uniq_sorted, IH].
Qed.

(** Two strictly increasing lists with the same elements are equal. *)
Lemma sorted_ext (l1 l2 : list Z) :
  Sorted Z.lt l1 -> Sorted Z.lt l2 -> (forall a, In a l1 <-> In a l2) -> l1 = l2.
Proof.
  intros H1 H2.
  apply (Sorted_StronglySorted Z.lt_trans) in H1.
  apply (Sorted_StronglySorted Z.lt_trans) in H2.
  revert l2 H2.
  induction H1 as [|a1 r1 Hs1 IH Hall1]; intros l2 H2 Hiff;
    destruct H2 as [|a2 r2 Hs2 Hall2].
  - reflexivity.
  - exfalso; apply (proj2 (Hiff a2)); left; reflexivity.
  - exfalso; apply (proj1 (Hiff a1)); left; reflexivity.
  - rewrite Forall_forall in Hall1, Hall2.
    assert (a1 = a2) as <-.
    { destruct (proj1 (Hiff a1) (or_introl eq_refl)) as [E|Hin]; [congruence|].
      destruct (proj2 (Hiff a2) (or_introl eq_refl)) as [E|Hin']; [congruence|].
      specialize (Hall2 _ Hin). specialize (Hall1 _ Hin'). lia. }
    f_equal. apply IH; [exact Hs2|].
    intro b; split; intro Hb.
    + destruct (proj1 (Hiff b) (or_intror Hb)) as [E|Hb']; [|exact Hb'].
      subst b; specialize (Hall1 _ Hb); lia.
    + destruct (proj2 (Hiff b) (or_intror Hb)) as [E|Hb']; [|exact Hb'].
      subst b; specialize (Hall2 _ Hb); lia.
Qed.

Lemma unique_app_unique (l1 l2 : list Z) :
  unique (unique l1 ++ l2)%list = unique (l1 ++ l2)%list.
Proof.
  apply sorted_ext; try apply unique_sorted.
  intro a. rewrite !In_unique, !in_app_iff, In_unique. tauto.
Qed.

(** X3. Calibrating on [(x1, y1)] and then incrementally on [(x2, y2)]
    leaves the classifier in exactly the state of one non-incremental
    calibration on the concatenations: same calibration set, same scores
    and the same (sorted) classes. *)
Theorem incremental_calibration_equiv {X : Type}
    (calc_nc : list X -> list Z -> list Q) (st : icp_classifier X)
    (x1 x2 : list X) (y1 y2 : list Z) :
  classifier_calibrate calc_nc (classifier_calibrate calc_nc st x1 y1 false) x2 y2 true =
  classifier_calibrate calc_nc st (x1 ++ x2)%list (y1 ++ y2)%list false.
Proof.
  unfold classifier_calibrate, base_calibrate, update_calibration_set,
    recompute_scores, update_classes; simpl.
  destruct (classes st); rewrite unique_app_unique; reflexivity.
Qed.

(** Witness: on [example_classifier], query [0] has score [0] for class [0]
    and score [1] for class [1]; its p-values are [1] and [3/5]. *)
Lemma classifier_pvalue_antitone_witness : (15 # 25) <= (25 # 25).
Proof.
  apply (classifier_pvalue_antitone abs_nc half_rng example_classifier
           [0; 1; 5]%Z 0 0 [0; 1]%Z [0; 0; 1; 1] example_pvalues 0 1 0 0
           0%Z 1%Z 0 1);
    try (vm_compute; reflexivity).
  unfold Qle; simpl; lia.
Defined.

(** Witness: [example_classifier] on the queries [[0; 1; 5]]. *)
Lemma classifier_predict_outcome_witness :
  ((forall c, In c [0; 1]%Z ->
      (List.length (abs_nc [0; 1; 5]%Z (repeat c 3)) <= 3)%nat) ->
   exists p k1, classifier_predict abs_nc half_rng example_classifier [0; 1; 5]%Z
                  None 0 = Ok (OutP p, k1) /\ is_matrix 3 2 p) /\
  ((exists c, In c [0; 1]%Z /\
      (3 < List.length (abs_nc [0; 1; 5]%Z (repeat c 3)))%nat) ->
   forall significance,
     classifier_predict abs_nc half_rng example_classifier [0; 1; 5]%Z
       significance 0 = Err IndexError).
Proof.
  apply (classifier_predict_outcome abs_nc half_rng example_classifier
           [0; 1; 5]%Z 0 [0; 1]%Z [0; 0; 1; 1]); vm_compute; reflexivity.
Defined.

(** Helper lemmas on the mean aggregation. *)
Lemma is_regression_classifier : is_regression IcpClassifier = Ok false.
Proof. reflexivity. Qed.

Lemma Q_of_nat_S (m : nat) : Q_of_nat (S m) == Q_of_nat m + 1.
Proof.
  unfold Q_of_nat; rewrite Nat2Z.inj_succ, <- Z.add_1_r, inject_Z_plus; reflexivity.
Qed.

Lemma Q_of_nat_S_pos (m : nat) : 0 < Q_of_nat (S m).
Proof.
  unfold Q_of_nat, Qlt; simpl; lia.
Qed.

Lemma Qsum_bounds (l : list Q) :
  (forall a, In a l -> 0 <= a <= 1) -> 0 <= Qsum l <= Q_of_nat (List.length l).
Proof.
  induction l as [|a r IH]; intro H; simpl.
  - unfold Q_of_nat; simpl; split; apply Qle_refl.
  - rewrite Q_of_nat_S.
    destruct (H a (or_introl eq_refl)) as [Ha0 Ha1].
    destruct IH as [Hr0 Hr1]; [intros b Hb; apply H; right; exact Hb|].
    split; lra.
Qed.



Lemma Forall2_map_seq_list {A B : Type} (R : A -> B -> Prop) (f : nat -> A)
    (l : list B) (d : B) :
  (forall j, (j < List.length l)%nat -> R (f j) (nth j l d)) ->
  Forall2 R (map f (seq 0 (List.length l))) l.
Proof.
  revert f; induction l as [|b l IH]; intros f H; simpl; constructor.
  - apply (H 0%nat); simpl; lia.
  - rewrite <- seq_shift, map_map.
    apply IH; intros j Hj; apply (H (S j)); simpl; lia.
Qed.

Lemma mat_get_nth {A : Type} (n c : nat) (m : list (list A)) (j i : nat) (d : A) :
  is_matrix n c m -> (j < n)%nat -> (i < c)%nat ->
  mat_get m j i = Some (nth i (nth j m []) d).
Proof.
  intros [Hn Hc] Hj Hi. unfold mat_get.
  rewrite (nth_error_nth' m [] (n:=j)) by lia.
  rewrite Forall_forall in Hc.
  assert (Hrow : List.length (nth j m []) = c) by (apply Hc, nth_In; lia).
  apply nth_error_nth'; lia.
Qed.

(** On [n x c] matrices, [mean_agg] is the [n x c] matrix of the entrywise
    means. *)
Lemma mean_agg_matrix (n c : nat) (ms : list (list (list Q))) :
  ms <> [] -> Forall (is_matrix n c) ms ->
  mean_agg ms =
  map (fun j => map (fun i => Qsum (map (fun m => nth i (nth j m []) 0) ms) /
                              Q_of_nat (List.length ms))
                    (seq 0 c))
      (seq 0 n).
Proof.
  intros Hne Hall. destruct ms as [|m0 r]; [contradiction|].
  pose proof (Forall_inv Hall) as [Hn Hc].
  unfold mean_agg. rewrite Hn.
  apply map_ext_in. intros j Hj. apply in_seq in Hj.
  rewrite Forall_forall in Hc.
  rewrite (Hc (nth j m0 [])) by (apply nth_In; lia).
  reflexivity.
Qed.

Lemma is_matrix_map_seq {A : Type} (n c : nat) (f : nat -> nat -> A) :
  is_matrix n c (map (fun j => map (f j) (seq 0 c)) (seq 0 n)).
Proof.
  split; [rewrite length_map, length_seq; reflexivity|].
  apply Forall_forall; intros row Hrow.
  apply in_map_iff in Hrow as (j & <- & _).
  rewrite length_map, length_seq; reflexivity.
Qed.

Lemma mat_get_map_seq {A : Type} (n c : nat) (f : nat -> nat -> A) (j i : nat) (a : A) :
  mat_get (map (fun j => map (f j) (seq 0 c)) (seq 0 n)) j i = Some a ->
  (j < n)%nat /\ (i < c)%nat /\ a = f j i.
Proof.
  unfold mat_get. rewrite nth_error_map, nth_error_seq.
  destruct (Nat.ltb_spec j n) as [Hj|Hj]; [|discriminate]. simpl.
  rewrite nth_error_map, nth_error_seq.
  destruct (Nat.ltb_spec i c) as [Hi|Hi]; [|discriminate]. simpl.
  intro E; injection E as <-. auto.
Qed.

(** X4. With the default aggregation [np.mean(x, axis=2)], the ACP
    p-values of a non-empty ensemble of classifiers whose members return
    [n x c] matrices of values in [[0, 1]] form an [n x c] matrix of values
    in [[0, 1]]. *)
Theorem acp_mean_pvalues_bounded {X P : Type}
    (member_predict : P -> list X -> option Q -> list (list Q))
    (predictors : list P) (x : list X) (n c : nat) :
  predictors <> [] ->
  (forall p, In p predictors ->
     is_matrix n c (member_predict p x None) /\
     forall j i a, mat_get (member_predict p x None) j i = Some a -> 0 <= a <= 1) ->
  exists pv,
    acp_predict member_predict mean_agg IcpClassifier predictors x None = Ok (OutP pv) /\
    is_matrix n c pv /\
    forall j i a, mat_get pv j i = Some a -> 0 <= a <= 1.
Proof.
  intros Hne Hm.
  set (ms := map (fun p => member_predict p x None) predictors).
  assert (Hms : ms <> []) by (destruct predictors; [contradiction|discriminate]).
  assert (Hall : Forall (is_matrix n c) ms).
  { apply Forall_forall; intros m Hin. apply in_map_iff in Hin as (p & <- & Hp).
    apply (Hm p Hp). }
  exists (mean_agg ms). split.
  { unfold acp_predict. rewrite is_regression_classifier. reflexivity. }
  rewrite (mean_agg_matrix n c ms Hms Hall). split; [apply is_matrix_map_seq|].
  intros j i a Ha. apply mat_get_map_seq in Ha as (Hj & Hi & ->).
  destruct ms as [|m0 r] eqn:Ems; [contradiction|].
  assert (Hpos : 0 < Q_of_nat (List.length (m0 :: r))) by apply Q_of_nat_S_pos.
  rewrite <- Ems in *.
  destruct (Qsum_bounds (map (fun m => nth i (nth j m []) 0) ms)) as [H0 H1].
  { intros b Hb. apply in_map_iff in Hb as (m & <- & Hin).
    unfold ms in Hin. apply in_map_iff in Hin as (p & <- & Hp).
    destruct (Hm p Hp) as [Hmat Hb].
    apply (Hb j i). apply (mat_get_nth n c); assumption. }
  rewrite length_map in H1.
  split.
  - apply Qle_shift_div_l; [exact Hpos|]. rewrite Qmult_0_l; exact H0.
  - apply Qle_shift_div_r; [exact Hpos|]. rewrite Qmult_1_l; exact H1.
Qed.

(** X5. With the default aggregation, an ensemble of one classifier
    returns that member's p-values (entrywise equal as rationals). *)
Theorem acp_mean_single_member {X P : Type}
    (member_predict : P -> list X -> option Q -> list (list Q))
    (p : P) (x : list X) :
  exists pv,
    acp_predict member_predict mean_agg IcpClassifier [p] x None = Ok (OutP pv) /\
    Forall2 (Forall2 Qeq) pv (member_predict p x None).
Proof.
  eexists. split.
  { unfold acp_predict. rewrite is_regression_classifier. reflexivity. }
  simpl. apply (Forall2_map_seq_list _ _ _ []). intros j Hj.
  apply (Forall2_map_seq_list _ _ _ 0). intros i Hi.
  unfold Q_of_nat; simpl. field.
Qed.


Lemma mat_get_Forall {A : Type} (P : A -> Prop) (m : list (list A)) :
  Forall (Forall P) m -> forall j i a, mat_get m j i = Some a -> P a.
Proof.
  intros H j i a Ha. unfold mat_get in Ha.
  destruct (nth_error m j) as [row|] eqn:Hj; [|discriminate].
  rewrite Forall_forall in H.
  specialize (H row (nth_error_In _ _ Hj)). rewrite Forall_forall in H.
  apply H, (nth_error_In _ _ Ha).
Qed.

(** Witness: the ensemble of [example_classifier] and [example_classifier2]
    on the queries [[0; 1; 5]]. *)
Lemma acp_mean_pvalues_bounded_witness :
  exists pv,
    acp_predict icp_pvalues mean_agg IcpClassifier
      [example_classifier; example_classifier2] [0; 1; 5]%Z None = Ok (OutP pv) /\
    is_matrix 3 2 pv /\
    forall j i a, mat_get pv j i = Some a -> 0 <= a <= 1.
Proof.
  apply (acp_mean_pvalues_bounded icp_pvalues
           [example_classifier; example_classifier2] [0; 1; 5]%Z 3 2).
  - discriminate.
  - intros p Hp. destruct Hp as [<-|[<-|[]]]; split;
      try (split; [reflexivity|repeat constructor]);
      apply mat_get_Forall; vm_compute; repeat constructor; discriminate.
Defined.


(** Helper lemmas on the bootstrap sampler. *)
Lemma set_nth_spec {A : Type} (l : list A) (j : nat) (v d : A) :
  (j < List.length l)%nat ->
  exists l', set_nth l j v = Some l' /\ List.length l' = List.length l /\
    forall i, nth i l' d = if Nat.eqb i j then v else nth i l d.
Proof.
  revert j; induction l as [|a r IH]; intros j Hj; simpl in Hj; [lia|].
  destruct j as [|j]; simpl.
  - exists (v :: r). split; [reflexivity|]. split; [reflexivity|].
    intros [|i]; reflexivity.
  - destruct (IH j) as (r' & -> & Hlen & Hnth); [lia|].
    exists (a :: r'). split; [reflexivity|]. split; [simpl; congruence|].
    intros [|i]; simpl; [reflexivity|apply Hnth].
Qed.

Lemma set_nth_out {A : Type} (l : list A) (j : nat) (v : A) :
  (List.length l <= j)%nat -> set_nth l j v = None.
Proof.
  revert j; induction l as [|a r IH]; intros j Hj; simpl in *; [reflexivity|].
  destruct j as [|j]; [lia|]. rewrite IH by lia. reflexivity.
Qed.

Lemma clear_mask_ok (mask : list bool) (train : list nat) :
  (forall j, In j train -> (j < List.length mask)%nat) ->
  exists m', clear_mask mask train = Ok m' /\ List.length m' = List.length mask /\
    forall i, nth i m' false = nth i mask false && negb (existsb (Nat.eqb i) train).
Proof.
  revert mask; induction train as [|j r IH]; intros mask H; simpl.
  - exists mask. split; [reflexivity|]. split; [reflexivity|].
    intro i; rewrite andb_true_r; reflexivity.
  - destruct (set_nth_spec mask j false false) as (m1 & -> & Hlen1 & Hnth1);
      [apply H; left; reflexivity|].
    destruct (IH m1) as (m' & -> & Hlen' & Hnth');
      [intros j' Hj'; rewrite Hlen1; apply H; right; exact Hj'|].
    exists m'. split; [reflexivity|]. split; [congruence|].
    intro i. rewrite Hnth', Hnth1.
    destruct (Nat.eqb i j); simpl; [rewrite andb_false_r|]; reflexivity.
Qed.

Lemma mask_select_seq (s n : nat) (m : list bool) :
  List.length m = n ->
  mask_select (seq s n) m = filter (fun i => nth (i - s) m false) (seq s n).
Proof.
  revert s m; induction n as [|n IH]; intros s m Hm; [reflexivity|].
  destruct m as [|b m]; [discriminate|]. simpl in Hm.
  assert (Hc : mask_select (seq s (S n)) (b :: m) =
               if b then s :: mask_select (seq (S s) n) m
               else mask_select (seq (S s) n) m) by (destruct b; reflexivity).
  assert (E : filter (fun i => nth (i - S s) m false) (seq (S s) n) =
              filter (fun i => nth (i - s) (b :: m) false) (seq (S s) n)).
  { apply filter_ext_in. intros i Hi. apply in_seq in Hi.
    replace (i - s)%nat with (S (i - S s)) by lia. reflexivity. }
  rewrite Hc, (IH (S s) m), E by lia.
  cbn [seq filter]. rewrite Nat.sub_diag. destruct b; reflexivity.
Qed.

Lemma nth_repeat_true (n i : nat) : nth i (repeat true n) false = Nat.ltb i n.
Proof.
  revert i; induction n as [|n IH]; intros [|i]; simpl; try reflexivity.
  rewrite IH. reflexivity.
Qed.

Lemma bootstrap_sample_spec (n : nat) (draw : nat -> nat) (k : nat) :
  (forall t, (t < n)%nat -> (draw (k + t) < n)%nat) ->
  let train := map (fun t => draw (k + t)%nat) (seq 0 n) in
  bootstrap_sample n draw k =
  Ok (train, filter (fun i => negb (existsb (Nat.eqb i) train)) (seq 0 n)).
Proof.
  intros H train. unfold bootstrap_sample. fold train.
  destruct (clear_mask_ok (repeat true n) train) as (m' & -> & Hlen & Hnth).
  { intros j Hj. rewrite repeat_length.
    unfold train in Hj. apply in_map_iff in Hj as (t & <- & Ht).
    apply in_seq in Ht. apply H; lia. }
  rewrite repeat_length in Hlen.
  rewrite (mask_select_seq 0 n m' Hlen).
  f_equal. f_equal. apply filter_ext_in. intros i Hi. apply in_seq in Hi.
  rewrite Nat.sub_0_r, Hnth, nth_repeat_true.
  destruct (Nat.ltb_spec i n); [reflexivity|lia].
Qed.

Lemma bootstrap_gen_samples_spec (n : nat) (draw : nat -> nat) (ns k : nat) :
  (forall t, (draw t < n)%nat) ->
  exists samples,
    bootstrap_gen_samples n draw ns k = Ok samples /\
    List.length samples = ns /\
    forall i, (i < ns)%nat ->
      let train := map (fun t => draw (k + i * n + t)%nat) (seq 0 n) in
      nth_error samples i =
      Some (train, filter (fun c => negb (existsb (Nat.eqb c) train)) (seq 0 n)).
Proof.
  intro H. revert k; induction ns as [|ns IH]; intro k; simpl.
  - exists []. split; [reflexivity|]. split; [reflexivity|]. intros i Hi; lia.
  - rewrite (bootstrap_sample_spec n draw k) by (intros; apply H).
    destruct (IH (k + n)%nat) as (r & -> & Hlen & Hnth).
    eexists. split; [reflexivity|]. split; [simpl; congruence|].
    intros [|i] Hi; simpl.
    + rewrite Nat.add_0_r. reflexivity.
    + rewrite Hnth by lia.
      replace (k + n + i * n)%nat with (k + (n + i * n))%nat by lia.
      reflexivity.
Qed.

(** X7. [BootstrapSampler.gen_samples] yields [n_samples] pairs; pair [i]
    trains on the [n = y.size] indices drawn at positions [k + i*n], ...,
    [k + i*n + n - 1] of the generator, with repetitions, and calibrates on
    the indices in [0, n) that were not drawn (the out-of-bag indices), in
    increasing order. *)
Theorem bootstrap_samples_out_of_bag (n : nat) (draw : nat -> nat) (ns k : nat) :
  (forall t, (draw t < n)%nat) ->
  exists samples,
    bootstrap_gen_samples n draw ns k = Ok samples /\
    List.length samples = ns /\
    forall i, (i < ns)%nat ->
      let train := map (fun t => draw (k + i * n + t)%nat) (seq 0 n) in
      nth_error samples i =
      Some (train, filter (fun c => negb (existsb (Nat.eqb c) train)) (seq 0 n)).
Proof.
  exact (bootstrap_gen_samples_spec n draw ns k).
Qed.

(** Witness: three examples, the draws [t * t mod 3], two samples. *)
Lemma bootstrap_samples_out_of_bag_witness :
  exists samples,
    bootstrap_gen_samples 3 (fun t => (t * t) mod 3)%nat 2 0 = Ok samples /\
    List.length samples = 2%nat /\
    forall i, (i < 2)%nat ->
      let train := map (fun t => (fun t => (t * t) mod 3)%nat (0 + i * 3 + t)%nat)
                       (seq 0 3) in
      nth_error samples i =
      Some (train, filter (fun c => negb (existsb (Nat.eqb c) train)) (seq 0 3)).
Proof.
  apply (bootstrap_samples_out_of_bag 3 (fun t => (t * t) mod 3)%nat 2 0).
  intro t. apply Nat.mod_upper_bound. discriminate.
Defined.

(** Helper lemmas on [AggregatedCp.fit]. *)
Lemma gather_ok {A : Type} (l : list A) (idx : list nat) :
  (forall i, In i idx -> (i < List.length l)%nat) ->
  exists t, gather l idx = Ok t /\ List.length t = List.length idx.
Proof.
  induction idx as [|i r IH]; intro H; simpl.
  - exists []. split; reflexivity.
  - destruct (nth_error l i) as [a|] eqn:Hi.
    + destruct IH as (t & -> & Hlen); [intros j Hj; apply H; right; exact Hj|].
      exists (a :: t). split; [reflexivity|simpl; congruence].
    + apply nth_error_None in Hi. specialize (H i (or_introl eq_refl)). lia.
Qed.

Lemma gather_err {A : Type} (l : list A) (idx : list nat) (e : exn) :
  gather l idx = Err e -> e = IndexError.
Proof.
  induction idx as [|i r IH]; simpl; [discriminate|].
  destruct (nth_error l i); [|congruence].
  destruct (gather l r); [discriminate|]. intro E; injection E as <-; apply IH; reflexivity.
Qed.

Lemma fit_member_err {X NC : Type} (nc_fit : list X -> list Z -> NC)
    (nc_calc : NC -> list X -> list Z -> list Q) (x : list X) (y : list Z)
    (train cal : list nat) (e : exn) :
  fit_member nc_fit nc_calc x y train cal = Err e -> e = IndexError.
Proof.
  unfold fit_member.
  destruct (gather x train) eqn:H1; [|intro E; injection E as <-; eapply gather_err; eauto].
  destruct (gather y train) eqn:H2; [|intro E; injection E as <-; eapply gather_err; eauto].
  destruct (gather x cal) eqn:H3; [|intro E; injection E as <-; eapply gather_err; eauto].
  destruct (gather y cal) eqn:H4; [discriminate|intro E; injection E as <-; eapply gather_err; eauto].
Qed.

Lemma fit_member_fitted {X NC : Type} (nc_fit : list X -> list Z -> NC)
    (nc_calc : NC -> list X -> list Z -> list Q) (x : list X) (y : list Z)
    (train cal : list nat) (m : NC * icp_classifier X) :
  fit_member nc_fit nc_calc x y train cal = Ok m ->
  member_fitted nc_fit nc_calc x y m (train, cal).
Proof.
  unfold fit_member.
  destruct (gather x train) as [xt|] eqn:H1; [|discriminate].
  destruct (gather y train) as [yt|] eqn:H2; [|discriminate].
  destruct (gather x cal) as [xc|] eqn:H3; [|discriminate].
  destruct (gather y cal) as [yc|] eqn:H4; [|discriminate].
  intro E; injection E as <-.
  exists xt, yt, xc, yc; simpl; repeat split; assumption.
Qed.

Lemma fit_members_ok_aux {X NC : Type} (nc_fit : list X -> list Z -> NC)
    (nc_calc : NC -> list X -> list Z -> list Q) (x : list X) (y : list Z)
    (samples : list (list nat * list nat)) :
  Forall (fun s => forall i, In i (fst s ++ snd s)%list ->
                     (i < List.length x)%nat /\ (i < List.length y)%nat) samples ->
  forall pre, exists ms,
    fit_members nc_fit nc_calc x y samples pre = ((pre ++ ms)%list, None) /\
    Forall2 (member_fitted nc_fit nc_calc x y) ms samples.
Proof.
  induction samples as [|[tr cl] r IH]; intros H pre; simpl.
  - exists []. rewrite app_nil_r. split; [reflexivity|constructor].
  - inversion H as [|? ? Hs Hr]; subst. simpl in Hs.
    destruct (gather_ok x tr) as (xt & Hxt & _);
      [intros i Hi; apply Hs, in_app_iff; left; exact Hi|].
    destruct (gather_ok y tr) as (yt & Hyt & _);
      [intros i Hi; apply Hs, in_app_iff; left; exact Hi|].
    destruct (gather_ok x cl) as (xc & Hxc & _);
      [intros i Hi; apply Hs, in_app_iff; right; exact Hi|].
    destruct (gather_ok y cl) as (yc & Hyc & _);
      [intros i Hi; apply Hs, in_app_iff; right; exact Hi|].
    set (m := (nc_fit xt yt,
               classifier_calibrate (nc_calc (nc_fit xt yt)) (classifier_init true)
                 xc yc false)).
    assert (Hf : fit_member nc_fit nc_calc x y tr cl = Ok m)
      by (unfold fit_member; rewrite Hxt, Hyt, Hxc, Hyc; reflexivity).
    rewrite Hf. cbv beta iota.
    destruct (IH Hr (pre ++ [m])%list) as (ms & Hfm & Hall).
    exists (m :: ms). split; [rewrite <- app_assoc in Hfm; exact Hfm|].
    constructor; [apply fit_member_fitted, Hf|exact Hall].
Qed.

Lemma fit_members_err_aux {X NC : Type} (nc_fit : list X -> list Z -> NC)
    (nc_calc : NC -> list X -> list Z -> list Q) (x : list X) (y : list Z)
    (samples : list (list nat * list nat)) :
  forall pre ps e,
  fit_members nc_fit nc_calc x y samples pre = (ps, Some e) ->
  e = IndexError /\
  exists ms s, ps = (pre ++ ms)%list /\
    Forall2 (member_fitted nc_fit nc_calc x y) ms (firstn (List.length ms) samples) /\
    nth_error samples (List.length ms) = Some s /\
    fit_member nc_fit nc_calc x y (fst s) (snd s) = Err IndexError.
Proof.
  induction samples as [|[tr cl] r IH]; intros pre ps e H; simpl in H;
    [discriminate|].
  destruct (fit_member nc_fit nc_calc x y tr cl) as [m|e'] eqn:Hf.
  - destruct (IH _ _ _ H) as [He (ms & s & Hps & Hall & Hs & Hfs)].
    split; [exact He|].
    exists (m :: ms), s. split; [rewrite Hps, <- app_assoc; reflexivity|].
    split; [simpl; constructor; [apply fit_member_fitted, Hf|exact Hall]|].
    split; [exact Hs|exact Hfs].
  - injection H as <- <-.
    pose proof (fit_member_err _ _ _ _ _ _ _ Hf) as ->.
    split; [reflexivity|].
    exists [], (tr, cl). rewrite app_nil_r.
    repeat split; [constructor|exact Hf].
Qed.

Lemma problem_type_classifier : get_problem_type IcpClassifier = Ok PyNone.
Proof. reflexivity. Qed.

(** X8. When the permuted data can be indexed by every index of every
    sample, [AggregatedCp(IcpClassifier, ...).fit] raises nothing and leaves
    one member per sample, in order: member [i] has its nonconformity
    function fitted on the [train] rows of sample [i], and its classifier
    (smoothing on) calibrated on exactly the [cal] rows, with the classes
    of those rows. The sampler is asked for its samples with the problem
    type [None]. *)
Theorem acp_fit_members {X NC : Type} (nc_fit : list X -> list Z -> NC)
    (nc_calc : NC -> list X -> list Z -> list Q)
    (gen_samples : list X -> list Z -> nat -> pyval ->
                   result (list (list nat * list nat)))
    (n_models : nat) (x : list X) (y : list Z) (perm : list nat)
    (xp : list X) (yp : list Z) (samples : list (list nat * list nat)) :
  gather x perm = Ok xp ->
  gather y perm = Ok yp ->
  gen_samples xp yp n_models PyNone = Ok samples ->
  Forall (fun s => forall i, In i (fst s ++ snd s)%list ->
                     (i < List.length xp)%nat /\ (i < List.length yp)%nat) samples ->
  exists ms,
    acp_fit nc_fit nc_calc gen_samples n_models x y perm = (ms, None) /\
    Forall2 (member_fitted nc_fit nc_calc xp yp) ms samples.
Proof.
  intros Hx Hy Hg Hall.
  unfold acp_fit. rewrite Hx, Hy, problem_type_classifier, Hg.
  exact (fit_members_ok_aux nc_fit nc_calc xp yp samples Hall []).
Qed.

(** X9. When [AggregatedCp(IcpClassifier, ...).fit] raises while fitting
    the members, the exception is an [IndexError] from indexing a sample,
    and [self.predictors] keeps the members fitted before it: one for each
    earlier sample, the failing sample being the next one. *)
Theorem acp_fit_partial {X NC : Type} (nc_fit : list X -> list Z -> NC)
    (nc_calc : NC -> list X -> list Z -> list Q)
    (gen_samples : list X -> list Z -> nat -> pyval ->
                   result (list (list nat * list nat)))
    (n_models : nat) (x : list X) (y : list Z) (perm : list nat)
    (xp : list X) (yp : list Z) (samples : list (list nat * list nat))
    (ps : list (NC * icp_classifier X)) (e : exn) :
  gather x perm = Ok xp ->
  gather y perm = Ok yp ->
  gen_samples xp yp n_models PyNone = Ok samples ->
  acp_fit nc_fit nc_calc gen_samples n_models x y perm = (ps, Some e) ->
  e = IndexError /\
  Forall2 (member_fitted nc_fit nc_calc xp yp) ps (firstn (List.length ps) samples) /\
  exists s, nth_error samples (List.length ps) = Some s /\
    fit_member nc_fit nc_calc xp yp (fst s) (snd s) = Err IndexError.
Proof.
  intros Hx Hy Hg H.
  unfold acp_fit in H. rewrite Hx, Hy, problem_type_classifier, Hg in H.
  destruct (fit_members_err_aux nc_fit nc_calc xp yp samples [] ps e H)
    as [He (ms & s & Hps & Hall & Hs & Hfs)].
  simpl in Hps. subst ps.
  split; [exact He|]. split; [exact Hall|]. exists s. split; assumption.
Qed.

(** X10. With the default [BootstrapSampler], [fit] on [n] examples
    ([y.size = n], at least [n] feature rows) raises nothing and leaves
    exactly [n_models] members. *)
Theorem acp_fit_bootstrap_n_models {X NC : Type} (nc_fit : list X -> list Z -> NC)
    (nc_calc : NC -> list X -> list Z -> list Q) (draw : nat -> nat) (k : nat)
    (n_models : nat) (x : list X) (y : list Z) (perm : list nat) :
  Permutation perm (seq 0 (List.length y)) ->
  (List.length y <= List.length x)%nat ->
  (forall t, (draw t < List.length y)%nat) ->
  exists ms,
    acp_fit nc_fit nc_calc (bootstrap_sampler draw k) n_models x y perm = (ms, None) /\
    List.length ms = n_models.
Proof.
  intros Hperm Hle Hdraw.
  assert (Hin : forall i, In i perm -> (i < List.length y)%nat).
  { intros i Hi. apply (Permutation_in _ Hperm), in_seq in Hi. lia. }
  destruct (gather_ok x perm) as (xp & Hx & Hxl);
    [intros i Hi; specialize (Hin i Hi); lia|].
  destruct (gather_ok y perm) as (yp & Hy & Hyl); [exact Hin|].
  assert (Hn : List.length perm = List.length y)
    by (rewrite (Permutation_length Hperm), length_seq; reflexivity).
  destruct (bootstrap_gen_samples_spec (List.length yp) draw n_models k)
    as (samples & Hg & Hsl & Hs); [intro t; rewrite Hyl, Hn; apply Hdraw|].
  assert (Hall : Forall (fun s => forall i, In i (fst s ++ snd s)%list ->
                   (i < List.length xp)%nat /\ (i < List.length yp)%nat) samples).
  { apply Forall_forall. intros s Hsin i Hi.
    destruct (In_nth_error _ _ Hsin) as (j & Hj).
    assert (Hjl : (j < n_models)%nat)
      by (rewrite <- Hsl; apply nth_error_Some; congruence).
    rewrite (Hs j Hjl) in Hj. injection Hj as <-. simpl in Hi.
    rewrite Hxl, Hyl, Hn.
    apply in_app_iff in Hi as [Hi|Hi].
    - apply in_map_iff in Hi as (t & <- & _).
      specialize (Hdraw (k + j * List.length yp + t)%nat). lia.
    - apply filter_In in Hi as [Hi _]. apply in_seq in Hi. rewrite Hyl, Hn in Hi. lia. }
  unfold acp_fit. rewrite Hx, Hy, problem_type_classifier.
  unfold bootstrap_sampler. rewrite Hg.
  destruct (fit_members_ok_aux nc_fit nc_calc xp yp samples Hall []) as (ms & -> & Hf).
  exists ms. split; [reflexivity|].
  rewrite <- Hsl. exact (Forall2_length Hf).
Qed.

(** X11. Since [IcpClassifier.get_problem_type()] returns [None],
    [AggregatedCp(IcpClassifier, ...).fit] with a [CrossSampler] always
    splits with [KFold], and with a [RandomSubSampler] always with
    [ShuffleSplit]: the stratified splitters are never used. *)
Theorem acp_fit_never_stratified {X NC : Type} (nc_fit : list X -> list Z -> NC)
    (nc_calc : NC -> list X -> list Z -> list Q)
    (split : splitter -> list X -> list Z -> nat ->
             result (list (list nat * list nat)))
    (n_models : nat) (x : list X) (y : list Z) (perm : list nat) :
  acp_fit nc_fit nc_calc
    (fun xp yp m pt => split (cross_sampler_splitter pt) xp yp m) n_models x y perm =
  acp_fit nc_fit nc_calc (fun xp yp m _ => split KFold xp yp m) n_models x y perm /\
  acp_fit nc_fit nc_calc
    (fun xp yp m pt => split (random_subsampler_splitter pt) xp yp m) n_models x y perm =
  acp_fit nc_fit nc_calc (fun xp yp m _ => split ShuffleSplit xp yp m) n_models x y perm.
Proof.
  unfold acp_fit. rewrite problem_type_classifier.
  split; reflexivity.
Qed.

(** Witness: three examples, permutation [[2; 0; 1]], two bootstrap
    samples, both training on [[0; 1; 1]] and calibrating on [[2]]. *)
Lemma acp_fit_members_witness :
  exists ms,
    acp_fit abs_fit abs_calc (bootstrap_sampler square_draw 0) 2
      [0; 1; 2]%Z [0; 1; 1]%Z [2; 0; 1]%nat = (ms, None) /\
    Forall2 (member_fitted abs_fit abs_calc [2; 0; 1]%Z [1; 0; 1]%Z) ms
      [([0; 1; 1]%nat, [2]%nat); ([0; 1; 1]%nat, [2]%nat)].
Proof.
  apply (acp_fit_members abs_fit abs_calc (bootstrap_sampler square_draw 0) 2
           [0; 1; 2]%Z [0; 1; 1]%Z [2; 0; 1]%nat [2; 0; 1]%Z [1; 0; 1]%Z
           [([0; 1; 1]%nat, [2]%nat); ([0; 1; 1]%nat, [2]%nat)]).
  - vm_compute; reflexivity.
  - vm_compute; reflexivity.
  - vm_compute; reflexivity.
  - repeat apply Forall_cons; try apply Forall_nil; simpl; intros i Hi;
      repeat destruct Hi as [<-|Hi]; try contradiction; simpl; lia.
Defined.

(** Witness: a sampler whose second sample trains on row [5] of three. *)
Lemma acp_fit_partial_witness :
  IndexError = IndexError /\
  Forall2 (member_fitted abs_fit abs_calc [2; 0; 1]%Z [1; 0; 1]%Z)
    [(tt, classifier_calibrate abs_nc (classifier_init true) [0]%Z [0]%Z false)]
    (firstn 1 [([0]%nat, [1]%nat); ([5]%nat, [0]%nat)]) /\
  exists s, nth_error [([0]%nat, [1]%nat); ([5]%nat, [0]%nat)] 1 = Some s /\
    fit_member abs_fit abs_calc [2; 0; 1]%Z [1; 0; 1]%Z (fst s) (snd s) = Err IndexError.
Proof.
  apply (acp_fit_partial abs_fit abs_calc
           (fun _ _ _ _ => Ok [([0]%nat, [1]%nat); ([5]%nat, [0]%nat)]) 2
           [0; 1; 2]%Z [0; 1; 1]%Z [2; 0; 1]%nat [2; 0; 1]%Z [1; 0; 1]%Z);
    vm_compute; reflexivity.
Defined.

(** Witness: three examples and [n_models = 4]. *)
Lemma acp_fit_bootstrap_n_models_witness :
  exists ms,
    acp_fit abs_fit abs_calc (bootstrap_sampler square_draw 0) 4
      [0; 1; 2]%Z [0; 1; 1]%Z [2; 0; 1]%nat = (ms, None) /\
    List.length ms = 4%nat.
Proof.
  apply (acp_fit_bootstrap_n_models abs_fit abs_calc square_draw 0 4
           [0; 1; 2]%Z [0; 1; 1]%Z [2; 0; 1]%nat).
  - exact (Permutation_cons_append [0; 1]%nat 2%nat).
  - simpl; lia.
  - intro t. apply Nat.mod_upper_bound. discriminate.
Defined.
